(** * Chroma vector-store adapter: shallow embedding and verified properties

    Source: [api/core/rag/datasource/vdb/chroma/chroma_vector.py]
    (classes [ChromaConfig], [ChromaVector], [ChromaVectorFactory]).

    Python floats are IEEE-754 binary64 numbers; they are embedded with the
    executable specification [spec_float] of the Standard Library, so that
    [1 - distance] and [score > score_threshold] compute as in CPython,
    NaN and infinities included.  A Python string is embedded as the Rocq
    string of its UTF-8 encoding: comparison, search for and splitting at an
    ASCII character are the same on both, the length in characters is
    counted by [py_len], and [str.lower], which depends on the Unicode
    tables, is a parameter.  Dictionaries are [gmap]s, the Redis
    client, the Chroma HTTP client and the log of calls made to them are
    threaded through an explicit world state. *)

From Stdlib Require Import ZArith String Ascii List Floats.SpecFloat Lia.
From stdpp Require Import gmap strings list sorting pretty.

Open Scope string_scope.

(** ** Python floats *)

Module PyFloat.

Definition float : Type := spec_float.
Definition prec : Z := 53.
Definition emax : Z := 1024.

(** [float(n)] for a Python [int]. *)
Definition of_int (n : Z) : float := binary_normalize prec emax n 0 false.

Definition zero : float := S754_zero false.
Definition sub (x y : float) : float := SFsub prec emax x y.
Definition div (x y : float) : float := SFdiv prec emax x y.
Definition ltb (x y : float) : bool := SFltb x y.
(** [x > y] is evaluated as [y < x]. *)
Definition gtb (x y : float) : bool := SFltb y x.
Definition eqb (x y : float) : bool := SFeqb x y.
Definition leb (x y : float) : bool := SFleb x y.

Definition is_nan (x : float) : bool :=
  match x with S754_nan => true | _ => false end.

(** [bool(x)]: every float but the two zeros is truthy, NaN included. *)
Definition truthy (x : float) : bool := negb (eqb x zero).

End PyFloat.

Abbreviation float := PyFloat.float.

Arguments PyFloat.of_int : simpl never.
Arguments PyFloat.sub : simpl never.
Arguments PyFloat.div : simpl never.
Arguments PyFloat.ltb : simpl never.
Arguments PyFloat.gtb : simpl never.
Arguments PyFloat.eqb : simpl never.
Arguments PyFloat.leb : simpl never.

(** ** Exceptions and results *)

Inductive exn : Type :=
| IndexError
| KeyError
| TypeError
| AttributeError.

Inductive result (A : Type) : Type :=
| Ok (a : A)
| Raise (e : exn).
Arguments Ok {A} a.
Arguments Raise {A} e.

#[global] Instance result_ret : MRet result := @Ok.
#[global] Instance result_bind : MBind result :=
  fun A B f r => match r with Ok a => f a | Raise e => Raise e end.

(** [l[i]] for a list and a non-negative index. *)
Definition subscript {A : Type} (l : list A) (i : nat) : result A :=
  match l !! i with
  | Some x => Ok x
  | None => Raise IndexError
  end.

(** ** Documents and metadata *)

Inductive value : Type :=
| VStr (s : string)
| VInt (n : Z)
| VFloat (f : float)
| VBool (b : bool).

Abbreviation Metadata := (gmap string value).

(** [core.rag.models.document.Document], restricted to the two fields the
    adapter reads and writes; [metadata] is optional in the source (the sort
    key of [search_by_vector] tests it against [None]). *)
Record Document : Type := {
  page_content : string;
  metadata : option Metadata
}.

(** ** Stable sorting on float keys

    [sorted(xs, key=k, reverse=True)] computes every key first, then sorts
    with a stable algorithm that compares keys with [<] only; stability under
    [reverse=True] is obtained in CPython by reversing the list, sorting it
    in ascending order and reversing the outcome.  The ascending stable sort
    is embedded as a straight insertion sort: [x] is placed after the
    elements whose key is strictly smaller and before all others. *)

Fixpoint insert_by_key {A : Type} (x : float * A) (l : list (float * A))
  : list (float * A) :=
  match l with
  | [] => [x]
  | y :: l' =>
      if PyFloat.ltb (fst y) (fst x) then y :: insert_by_key x l'
      else x :: y :: l'
  end.

Definition stable_sort {A : Type} (l : list (float * A)) : list (float * A) :=
  foldr insert_by_key [] l.

Fixpoint decorate {A : Type} (key : A -> result float) (l : list A)
  : result (list (float * A)) :=
  match l with
  | [] => Ok []
  | x :: l' =>
      k ← key x;
      rest ← decorate key l';
      Ok ((k, x) :: rest)
  end.

Definition sorted_reverse {A : Type} (key : A -> result float) (l : list A)
  : result (list A) :=
  keyed ← decorate key l;
  Ok (map snd (rev (stable_sort (rev keyed)))).

(** ** Backend responses *)

(** [chromadb.QueryResult]: one inner list per query embedding; every field
    the adapter reads may be [None]. *)
Record QueryResult : Type := {
  qr_ids : option (list (list string));
  qr_documents : option (list (list string));
  qr_metadatas : option (list (list Metadata));
  qr_distances : option (list (list float))
}.

(** [chromadb.GetResult]: a mapping with a fixed set of keys. *)
Record GetResult : Type := {
  gr_ids : list string;
  gr_embeddings : option (list (list float));
  gr_documents : option (list string);
  gr_uris : option (list string);
  gr_data : option (list string);
  gr_metadatas : option (list Metadata);
  gr_included : list string
}.

Definition GetResult_keys : list string :=
  ["ids"; "embeddings"; "documents"; "uris"; "data"; "metadatas"; "included"].

(** [len(response)] on the mapping: the number of its keys. *)
Definition len_GetResult (_ : GetResult) : nat := length GetResult_keys.

(** Truth value of an optional list: [None] and [[]] are falsy. *)
Definition truthy_list {A : Type} (o : option (list A)) : bool :=
  match o with
  | Some (_ :: _) => true
  | _ => false
  end.

(** [field[0]] on an optional list of lists. *)
Definition first_of {A : Type} (o : option (list (list A))) : result (list A) :=
  match o with
  | Some l => subscript l 0
  | None => Raise TypeError
  end.

(** ** Result assembly of [search_by_vector] (source lines 109-132) *)

Definition one : float := PyFloat.of_int 1.
Arguments one : simpl never.

(** The key of the final sort:
    [x.metadata["score"] if x.metadata is not None else 0].  The loop below
    stores floats only under ["score"]; another kind of value there is
    outside the float ordering embedded here. *)
Definition score_key (x : Document) : result float :=
  match metadata x with
  | Some m =>
      match m !! "score" with
      | Some (VFloat s) => Ok s
      | Some _ => Raise TypeError
      | None => Raise KeyError
      end
  | None => Ok (PyFloat.of_int 0)
  end.

(** The body of [for index in range(len(ids))], with [docs] the accumulator. *)
Fixpoint collect (documents : list string) (metadatas : list Metadata)
  (distances : list float) (score_threshold : float)
  (indices : list nat) (docs : list Document) : result (list Document) :=
  match indices with
  | [] => Ok docs
  | index :: rest =>
      distance ← subscript distances index;
      metadata0 ← subscript metadatas index;
      let score := PyFloat.sub one distance in
      if PyFloat.gtb score score_threshold then
        let metadata1 := <["score" := VFloat score]> metadata0 in
        content ← subscript documents index;
        let doc := {| page_content := content; metadata := Some metadata1 |} in
        collect documents metadatas distances score_threshold rest (docs ++ [doc])
      else
        collect documents metadatas distances score_threshold rest docs
  end.

Definition assemble (results : QueryResult) (score_threshold : float)
  : result (list Document) :=
  if negb (truthy_list (qr_ids results))
     || negb (truthy_list (qr_documents results))
     || negb (truthy_list (qr_metadatas results))
     || negb (truthy_list (qr_distances results))
  then Ok []
  else
    ids ← first_of (qr_ids results);
    documents ← first_of (qr_documents results);
    metadatas ← first_of (qr_metadatas results);
    distances ← first_of (qr_distances results);
    docs ← collect documents metadatas distances score_threshold
             (seq 0 (length ids)) [];
    sorted_reverse score_key docs.

(** ** The external collaborators *)

(** Metadata filters passed to the engine ([where=...]). *)
Inductive Where : Type :=
| WhereEq (field : string) (val : string)
| WhereIn (field : string) (vals : list string).

(** The calls the adapter makes on the Chroma client and on its collection
    handles.  The engine is an external collaborator: its state [B] is
    abstract and each call is a function of that state. *)
Class ChromaClient (B : Type) : Type := {
  client_get_or_create_collection : string -> B -> B;
  client_delete_collection : string -> B -> B;
  collection_upsert :
    string -> list string -> list string -> list (list float) ->
    list (option Metadata) -> B -> B;
  collection_delete : string -> option (list string) -> option Where -> B -> B;
  collection_get : string -> list string -> B -> GetResult;
  collection_query :
    string -> list float -> Z -> option Where -> B -> QueryResult
}.

(** Every call that leaves the process, in the order it is issued. *)
Inductive Event : Type :=
| EvLockAcquire (name : string) (timeout : Z)
| EvLockRelease (name : string)
| EvCacheGet (key : string)
| EvCacheSet (key : string) (val : string) (ex : Z)
| EvGetOrCreateCollection (name : string)
| EvDeleteCollection (name : string)
| EvUpsert (collection : string) (ids : list string) (documents : list string)
    (embeddings : list (list float)) (metadatas : list (option Metadata))
| EvDelete (collection : string) (ids : option (list string))
    (where_ : option Where)
| EvGet (collection : string) (ids : list string)
| EvQuery (collection : string) (query_embeddings : list float)
    (n_results : Z) (where_ : option Where).

(** The world a method runs in: the Redis key space (value and expiry in
    seconds of each key), the engine, the supply of generated ids and the
    log of calls. *)
Record World (B : Type) : Type := {
  cache : gmap string (string * Z);
  backend : B;
  next_uuid : nat;
  trace : list Event
}.
Arguments cache {B} w.
Arguments backend {B} w.
Arguments next_uuid {B} w.
Arguments trace {B} w.

Definition M (B A : Type) : Type := World B -> result A * World B.

#[global] Instance M_ret {B : Type} : MRet (M B) := fun A a w => (Ok a, w).
#[global] Instance M_bind {B : Type} : MBind (M B) :=
  fun A1 A2 f m w =>
    match m w with
    | (Ok a, w') => f a w'
    | (Raise e, w') => (Raise e, w')
    end.

Definition lift {B A : Type} (r : result A) : M B A := fun w => (r, w).

Definition gets {B A : Type} (f : World B -> A) : M B A :=
  fun w => (Ok (f w), w).

Definition modify {B : Type} (f : World B -> World B) : M B unit :=
  fun w => (Ok tt, f w).

Definition log {B : Type} (e : Event) : M B unit :=
  modify (fun w => {| cache := cache w; backend := backend w;
                      next_uuid := next_uuid w; trace := trace w ++ [e] |}).

Definition on_backend {B : Type} (f : B -> B) : M B unit :=
  modify (fun w => {| cache := cache w; backend := f (backend w);
                      next_uuid := next_uuid w; trace := trace w |}).

Definition ask_backend {B A : Type} (f : B -> A) : M B A :=
  gets (fun w => f (backend w)).

(** [redis_client.get(key)]: the stored bytes, or [None]. *)
Definition redis_get {B : Type} (key : string) : M B (option string) :=
  _ ← log (EvCacheGet key);
  gets (fun w => fst <$> cache w !! key).

(** [redis_client.set(key, val, ex=ex)]. *)
Definition redis_set {B : Type} (key val : string) (ex : Z) : M B unit :=
  _ ← log (EvCacheSet key val ex);
  modify (fun w => {| cache := <[key := (val, ex)]> (cache w);
                      backend := backend w; next_uuid := next_uuid w;
                      trace := trace w |}).

(** Truth value of what [redis_client.get] returns. *)
Definition truthy_bytes (o : option string) : bool :=
  match o with
  | None => false
  | Some s => negb (String.eqb s "")
  end.

(** [with redis_client.lock(name, timeout=t): body].  Acquisition blocks
    until the lock is free; the lock is released on every exit of the body,
    an exception included. *)
Definition with_lock {B A : Type} (name : string) (timeout : Z) (body : M B A)
  : M B A :=
  fun w =>
    let (_, w0) := log (EvLockAcquire name timeout) w in
    let (r, w1) := body w0 in
    let (_, w2) := log (EvLockRelease name) w1 in
    (r, w2).

(** ** [ChromaConfig] and [ChromaVector] *)

Record ChromaConfig : Type := {
  host : string;
  port : Z;
  tenant : string;
  database : string;
  auth_provider : option string;
  auth_credentials : option string
}.

(** An adapter instance: [BaseVector.__init__] stores the collection name,
    [ChromaVector.__init__] the configuration the HTTP client is built from. *)
Record ChromaVector : Type := {
  _collection_name : string;
  _client_config : ChromaConfig
}.

(** The keyword arguments [search_by_vector] reads with [kwargs.get]. *)
Record SearchKwargs : Type := {
  kw_top_k : option Z;
  kw_score_threshold : option float;
  kw_document_ids_filter : option (list string)
}.

Section Adapter.

Context {B : Type} `{ChromaClient B}.

(** [VectorType.CHROMA], declared in [vector_type.py]. *)
Variable VectorType_CHROMA : string.

(** The metadata key that carries a caller-supplied id and the generator of
    new ids, both used by [BaseVector._get_uuids]. *)
Variable doc_id_key : string.
Variable uuid4 : nat -> string.

(** *** Calls on the client, logged *)

Definition get_or_create_collection (name : string) : M B unit :=
  _ ← log (EvGetOrCreateCollection name);
  on_backend (client_get_or_create_collection name).

Definition delete_collection (name : string) : M B unit :=
  _ ← log (EvDeleteCollection name);
  on_backend (client_delete_collection name).

Definition upsert (collection : string) (ids documents : list string)
  (embeddings : list (list float)) (metadatas : list (option Metadata))
  : M B unit :=
  _ ← log (EvUpsert collection ids documents embeddings metadatas);
  on_backend (collection_upsert collection ids documents embeddings metadatas).

Definition delete_from (collection : string) (ids : option (list string))
  (where_ : option Where) : M B unit :=
  _ ← log (EvDelete collection ids where_);
  on_backend (collection_delete collection ids where_).

Definition get_from (collection : string) (ids : list string) : M B GetResult :=
  _ ← log (EvGet collection ids);
  ask_backend (collection_get collection ids).

Definition query (collection : string) (query_embeddings : list float)
  (n_results : Z) (where_ : option Where) : M B QueryResult :=
  _ ← log (EvQuery collection query_embeddings n_results where_);
  ask_backend (collection_query collection query_embeddings n_results where_).

(** *** Methods of [ChromaVector] *)

Definition get_type (self : ChromaVector) : string := VectorType_CHROMA.

Definition create_collection (self : ChromaVector) (collection_name : string)
  : M B unit :=
  let lock_name := "vector_indexing_lock_" +:+ collection_name in
  with_lock lock_name 20 (
    let collection_exist_cache_key :=
      "vector_indexing_" +:+ _collection_name self in
    cached ← redis_get collection_exist_cache_key;
    if truthy_bytes cached then mret tt
    else
      _ ← get_or_create_collection collection_name;
      redis_set collection_exist_cache_key "1" 3600).

Definition fresh_uuid : M B string :=
  fun w => (Ok (uuid4 (next_uuid w)),
            {| cache := cache w; backend := backend w;
               next_uuid := S (next_uuid w); trace := trace w |}).

(** Modelled from the spec: [BaseVector._get_uuids] lives in
    [vector_base.py]; section 4.1 has it assign an id to each Document,
    reusing a caller-supplied id if present in the metadata, else generating
    one. *)
Definition assign_id (text : Document) : M B string :=
  match metadata text ≫= (fun m => m !! doc_id_key) with
  | Some (VStr supplied) => mret supplied
  | _ => fresh_uuid
  end.

Fixpoint _get_uuids (texts : list Document) : M B (list string) :=
  match texts with
  | [] => mret []
  | text :: rest =>
      uuid ← assign_id text;
      uuids ← _get_uuids rest;
      mret (uuid :: uuids)
  end.

Definition add_texts (self : ChromaVector) (documents : list Document)
  (embeddings : list (list float)) : M B unit :=
  uuids ← _get_uuids documents;
  let texts := page_content <$> documents in
  let metadatas := metadata <$> documents in
  _ ← get_or_create_collection (_collection_name self);
  upsert (_collection_name self) uuids texts embeddings metadatas.

Definition create (self : ChromaVector) (texts : list Document)
  (embeddings : list (list float)) : M B unit :=
  match texts with
  | [] => mret tt
  | _ :: _ =>
      _ ← create_collection self (_collection_name self);
      add_texts self texts embeddings
  end.

Definition delete_by_metadata_field (self : ChromaVector) (key value : string)
  : M B unit :=
  _ ← get_or_create_collection (_collection_name self);
  delete_from (_collection_name self) None (Some (WhereEq key value)).

Definition delete (self : ChromaVector) : M B unit :=
  delete_collection (_collection_name self).

Definition delete_by_ids (self : ChromaVector) (ids : list string) : M B unit :=
  match ids with
  | [] => mret tt
  | _ :: _ =>
      _ ← get_or_create_collection (_collection_name self);
      delete_from (_collection_name self) (Some ids) None
  end.

Definition text_exists (self : ChromaVector) (id : string) : M B bool :=
  _ ← get_or_create_collection (_collection_name self);
  response ← get_from (_collection_name self) [id];
  mret (0 <? len_GetResult response)%nat.

(** [float(kwargs.get("score_threshold") or 0.0)]. *)
Definition threshold_of (kwargs : SearchKwargs) : float :=
  match kw_score_threshold kwargs with
  | Some t => if PyFloat.truthy t then t else PyFloat.zero
  | None => PyFloat.zero
  end.

(** [kwargs.get("top_k", 4)]. *)
Definition n_results_of (kwargs : SearchKwargs) : Z :=
  default 4%Z (kw_top_k kwargs).

Definition search_by_vector (self : ChromaVector) (query_vector : list float)
  (kwargs : SearchKwargs) : M B (list Document) :=
  _ ← get_or_create_collection (_collection_name self);
  let document_ids_filter := kw_document_ids_filter kwargs in
  results ←
    (if truthy_list document_ids_filter then
       query (_collection_name self) query_vector (n_results_of kwargs)
         (Some (WhereIn "document_id" (default [] document_ids_filter)))
     else
       query (_collection_name self) query_vector (n_results_of kwargs) None);
  let score_threshold := threshold_of kwargs in
  lift (assemble results score_threshold).

(** [kwargs] is not read: any keyword arguments are accepted. *)
Definition search_by_full_text {K : Type} (self : ChromaVector)
  (query_ : string) (kwargs : K) : M B (list Document) :=
  mret [].

End Adapter.

(** ** [ChromaVectorFactory] *)

(** A string made of ASCII characters only (bytes below 128). *)
Definition is_ascii (s : string) : bool :=
  forallb (fun c => (nat_of_ascii c <? 128)%nat) (list_ascii_of_string s).

(** The letters [A-Z] turned into [a-z], every other character kept: what
    [str.lower()] does to a string made of ASCII characters.  On other
    strings [str.lower()] follows the Unicode tables and is not this
    function. *)
Definition ascii_lower_char (c : ascii) : ascii :=
  let n := nat_of_ascii c in
  if (65 <=? n)%nat && (n <=? 90)%nat then ascii_of_nat (n + 32) else c.

Fixpoint ascii_lower (s : string) : string :=
  match s with
  | EmptyString => EmptyString
  | String c s' => String (ascii_lower_char c) (ascii_lower s')
  end.

(** What is known of a function [str_lower] that stands for [str.lower]:
    on the strings made of ASCII characters it is [ascii_lower]. *)
Definition lower_on_ascii (str_lower : string -> string) : Prop :=
  forall s, is_ascii s = true -> str_lower s = ascii_lower s.

(** The JSON documents an index structure is made of; [JNull] is Python's
    [None]. *)
#[warnings="-register-all"]
Inductive json : Type :=
| JNull
| JString (s : string)
| JObject (fields : list (string * json)).

(** [d[key]] on a decoded JSON value. *)
Definition getitem (d : json) (key : string) : result json :=
  match d with
  | JObject fields =>
      match list_find (fun kv => fst kv = key) fields with
      | Some (_, (_, v)) => Ok v
      | None => Raise KeyError
      end
  | _ => Raise TypeError
  end.

(** [v.lower()] on a decoded JSON value, [str_lower] being [str.lower]. *)
Definition json_lower (str_lower : string -> string) (v : json)
  : result string :=
  match v with
  | JString s => Ok (str_lower s)
  | _ => Raise AttributeError
  end.

(** Truth value of a decoded JSON value. *)
Definition truthy_json (d : json) : bool :=
  match d with
  | JObject (_ :: _) => true
  | JString s => negb (String.eqb s "")
  | _ => false
  end.

Module Dataset.

(** Modelled from the spec: the [Dataset] entity lives in
    [models/dataset.py]; section 6 has the factory read its [id] and its
    [index_struct_dict] (a mapping, or absent) and write [index_struct] as
    the serialised mapping.  The field holds the mapping that
    [json.dumps] serialises and [json.loads] reads back. *)
Record t : Type := {
  id : string;
  index_struct : option json
}.

Definition index_struct_dict (dataset : t) : json :=
  match index_struct dataset with
  | Some d => d
  | None => JNull
  end.

Definition set_index_struct (dataset : t) (d : json) : t :=
  {| id := id dataset; index_struct := Some d |}.

End Dataset.

(** The settings of [configs.dify_config] the factory reads. *)
Record DifyConfig : Type := {
  CHROMA_HOST : option string;
  CHROMA_PORT : Z;
  CHROMA_TENANT : option string;
  CHROMA_DATABASE : option string;
  CHROMA_AUTH_PROVIDER : option string;
  CHROMA_AUTH_CREDENTIALS : option string
}.

(** [x or d] on an optional string. *)
Definition or_else (x : option string) (d : string) : string :=
  match x with
  | Some s => if String.eqb s "" then d else s
  | None => d
  end.

Section Factory.

Variable VectorType_CHROMA : string.
(** [Dataset.gen_collection_name_by_id], declared in [models/dataset.py]. *)
Variable gen_collection_name_by_id : string -> string.
(** [str.lower], the method of Python strings. *)
Variable str_lower : string -> string.
Variable dify_config : DifyConfig.
(** [chromadb.DEFAULT_TENANT] and [chromadb.DEFAULT_DATABASE]. *)
Variables DEFAULT_TENANT DEFAULT_DATABASE : string.

Definition config_of_settings : ChromaConfig :=
  {| host := or_else (CHROMA_HOST dify_config) "";
     port := CHROMA_PORT dify_config;
     tenant := or_else (CHROMA_TENANT dify_config) DEFAULT_TENANT;
     database := or_else (CHROMA_DATABASE dify_config) DEFAULT_DATABASE;
     auth_provider := CHROMA_AUTH_PROVIDER dify_config;
     auth_credentials := CHROMA_AUTH_CREDENTIALS dify_config |}.

(** The branch of [init_vector] that resolves the collection name; the
    dataset is returned with the mutation the branch makes. *)
Definition resolve_collection_name (dataset : Dataset.t)
  : result string * Dataset.t :=
  if truthy_json (Dataset.index_struct_dict dataset) then
    (vector_store ← getitem (Dataset.index_struct_dict dataset) "vector_store";
     class_prefix ← getitem vector_store "class_prefix";
     json_lower str_lower class_prefix,
     dataset)
  else
    let dataset_id := Dataset.id dataset in
    let collection_name := str_lower (gen_collection_name_by_id dataset_id) in
    let index_struct_dict :=
      JObject [("type", JString VectorType_CHROMA);
               ("vector_store",
                JObject [("class_prefix", JString collection_name)])] in
    (Ok collection_name, Dataset.set_index_struct dataset index_struct_dict).

(** [init_vector(dataset, attributes, embeddings)]; the last two arguments
    are not read. *)
Definition init_vector (dataset : Dataset.t)
  : result ChromaVector * Dataset.t :=
  let (name, dataset') := resolve_collection_name dataset in
  (collection_name ← name;
   Ok {| _collection_name := collection_name;
         _client_config := config_of_settings |},
   dataset').

End Factory.

(** ** A reference engine *)

Record Entry : Type := {
  entry_document : string;
  entry_embedding : list float;
  entry_metadata : option Metadata
}.

Abbreviation Collections := (gmap string (gmap string Entry)).

Definition matches_where (w : Where) (e : Entry) : bool :=
  match w with
  | WhereEq field val =>
      match entry_metadata e ≫= (fun m => m !! field) with
      | Some (VStr s) => String.eqb s val
      | _ => false
      end
  | WhereIn field vals =>
      match entry_metadata e ≫= (fun m => m !! field) with
      | Some (VStr s) => existsb (String.eqb s) vals
      | _ => false
      end
  end.

Section ReferenceEngine.

(** The nearest-neighbour search of the engine, over the entries of one
    collection. *)
Variable knn :
  gmap string Entry -> list float -> Z -> option Where -> QueryResult.

Definition entries_of (name : string) (cs : Collections) : gmap string Entry :=
  default ∅ (cs !! name).

Definition mem_get_or_create (name : string) (cs : Collections) : Collections :=
  match cs !! name with
  | Some _ => cs
  | None => <[name := ∅]> cs
  end.

Definition mem_upsert (name : string) (ids documents : list string)
  (embeddings : list (list float)) (metadatas : list (option Metadata))
  (cs : Collections) : Collections :=
  let rows := zip ids (zip documents (zip embeddings metadatas)) in
  let put (c : gmap string Entry) (row : string * (string * (list float * option Metadata))) :=
    <[row.1 := {| entry_document := row.2.1;
                  entry_embedding := row.2.2.1;
                  entry_metadata := row.2.2.2 |}]> c in
  <[name := foldl put (entries_of name cs) rows]> cs.

Definition mem_delete (name : string) (ids : option (list string))
  (where_ : option Where) (cs : Collections) : Collections :=
  let c := entries_of name cs in
  let c1 := match ids with
            | Some l => foldr (fun i m => base.delete i m) c l
            | None => c
            end in
  let c2 := match where_ with
            | Some w => filter (fun kv => matches_where w kv.2 = false) c1
            | None => c1
            end in
  <[name := c2]> cs.

Definition mem_get (name : string) (ids : list string) (cs : Collections)
  : GetResult :=
  let c := entries_of name cs in
  let found := omap (fun i => (fun e => (i, e)) <$> c !! i) ids in
  {| gr_ids := fst <$> found;
     gr_embeddings := None;
     gr_documents := Some ((fun ie => entry_document ie.2) <$> found);
     gr_uris := None;
     gr_data := None;
     gr_metadatas := Some ((fun ie => default ∅ (entry_metadata ie.2)) <$> found);
     gr_included := ["metadatas"; "documents"] |}.

(** Modelled from the spec: the Chroma engine is an external service;
    sections 4.1 and 6 give its contract: get-or-create and deletion of a
    collection, upsert with replacement of an id already present, deletion
    by ids (missing ids ignored) or by metadata equality, lookup by ids, and
    nearest-neighbour query. *)
#[local] Instance MemClient : ChromaClient Collections := {
  client_get_or_create_collection := mem_get_or_create;
  client_delete_collection := fun name cs => base.delete name cs;
  collection_upsert := mem_upsert;
  collection_delete := mem_delete;
  collection_get := mem_get;
  collection_query := fun name qv n w cs => knn (entries_of name cs) qv n w
}.

End ReferenceEngine.

(** ** Vocabulary of the statements *)

(** The Document the loop of [search_by_vector] builds for a candidate with
    text [text], metadata [m] and distance [d]. *)
Definition candidate (text : string) (m : Metadata) (d : float) : Document :=
  {| page_content := text;
     metadata := Some (<["score" := VFloat (PyFloat.sub one d)]> m) |}.

(** The Document of the candidate at position [i], when its score passes the
    threshold. *)
Definition candidate_at (documents : list string) (metadatas : list Metadata)
  (distances : list float) (score_threshold : float) (i : nat)
  : option Document :=
  match documents !! i, metadatas !! i, distances !! i with
  | Some text, Some m, Some d =>
      if PyFloat.gtb (PyFloat.sub one d) score_threshold
      then Some (candidate text m d) else None
  | _, _, _ => None
  end.

(** The candidates that pass the threshold, in the order of the backend. *)
Definition retained (documents : list string) (metadatas : list Metadata)
  (distances : list float) (score_threshold : float) (n : nat)
  : list Document :=
  omap (candidate_at documents metadatas distances score_threshold) (seq 0 n).

(** [has_score s doc]: the sort key of [doc] is a float equal to [s]. *)
Definition has_score (s : float) (doc : Document) : bool :=
  match score_key doc with
  | Ok k => PyFloat.eqb k s
  | Raise _ => false
  end.

(** [doc1] may stand before [doc2] in a sequence sorted by descending score. *)
Definition score_ge (doc1 doc2 : Document) : Prop :=
  exists s1 s2, score_key doc1 = Ok s1 /\ score_key doc2 = Ok s2 /\
                PyFloat.leb s2 s1 = true.

(** [doc.metadata["score"]] is a float equal to [s]. *)
Definition scored (s : float) (doc : Document) : bool :=
  match metadata doc with
  | Some m =>
      match m !! "score" with
      | Some (VFloat k) => SFeqb k s
      | _ => false
      end
  | None => false
  end.

(** The contract of the engine on [n_results]: whatever the query, it
    answers with at most [n_results] candidates. *)
Definition honours_n_results {B : Type} `{ChromaClient B} : Prop :=
  forall name query_embeddings n_results where_ b candidates rest,
    qr_ids (collection_query name query_embeddings n_results where_ b) =
      Some (candidates :: rest) ->
    (length candidates <= Z.to_nat n_results)%nat.

(** The metadata filter [search_by_vector] passes to the engine. *)
Definition where_of (kwargs : SearchKwargs) : option Where :=
  if truthy_list (kw_document_ids_filter kwargs)
  then Some (WhereIn "document_id" (default [] (kw_document_ids_filter kwargs)))
  else None.

(** The response of the engine to the query [search_by_vector] issues from
    engine state [b]. *)
Definition response_of {B : Type} `{ChromaClient B} (self : ChromaVector)
  (query_vector : list float) (kwargs : SearchKwargs) (b : B) : QueryResult :=
  collection_query (_collection_name self) query_vector (n_results_of kwargs)
    (where_of kwargs)
    (client_get_or_create_collection (_collection_name self) b).

(** A field of the response is absent or empty. *)
Definition absent_or_empty {A : Type} (o : option (list A)) : Prop :=
  o = None \/ o = Some [].

(** [w] with its engine replaced and [events] appended to its log. *)
Definition after {B : Type} (w : World B) (b : B) (events : list Event)
  : World B :=
  {| cache := cache w; backend := b; next_uuid := next_uuid w;
     trace := trace w ++ events |}.

(** [w] once [n] ids have been drawn from the supply. *)
Definition with_next_uuid {B : Type} (w : World B) (n : nat) : World B :=
  {| cache := cache w; backend := backend w; next_uuid := n;
     trace := trace w |}.

(** The Redis key and the lock name of a collection. *)
Definition cache_key (name : string) : string := "vector_indexing_" +:+ name.
Definition lock_name (name : string) : string :=
  "vector_indexing_lock_" +:+ name.

(** The world [create_collection self name] leaves when it provisions. *)
Definition provisioned {B : Type} `{ChromaClient B} (self : ChromaVector)
  (name : string) (w : World B) : World B :=
  {| cache := <[cache_key (_collection_name self) := ("1", 3600%Z)]> (cache w);
     backend := client_get_or_create_collection name (backend w);
     next_uuid := next_uuid w;
     trace := trace w ++
              [EvLockAcquire (lock_name name) 20;
               EvCacheGet (cache_key (_collection_name self));
               EvGetOrCreateCollection name;
               EvCacheSet (cache_key (_collection_name self)) "1" 3600;
               EvLockRelease (lock_name name)] |}.

(** The Redis values under which [truthy_bytes] agrees with presence: no key
    holds the empty string. *)
Definition sentinels_only (c : gmap string (string * Z)) : Prop :=
  forall key v ex, c !! key = Some (v, ex) -> v <> "".

(** ** The scenario of the specification

    Two Documents ["a"] and ["b"], a query answered with the cosine
    distances [0.1] and [1.4], [top_k = 2] and [score_threshold = 0.5]. *)

(** The float literal [n/d], correctly rounded. *)
Definition literal (n d : Z) : float :=
  PyFloat.div (PyFloat.of_int n) (PyFloat.of_int d).

Definition scenario_response : QueryResult :=
  {| qr_ids := Some [["a"; "b"]];
     qr_documents := Some [["a"; "b"]];
     qr_metadatas := Some [[∅; ∅]];
     qr_distances := Some [[literal 1 10; literal 14 10]] |}.

Definition scenario_knn (_ : gmap string Entry) (_ : list float) (_ : Z)
  (_ : option Where) : QueryResult := scenario_response.

Definition scenario_config : ChromaConfig :=
  {| host := "localhost"; port := 8000; tenant := "default_tenant";
     database := "default_database"; auth_provider := None;
     auth_credentials := None |}.

Definition scenario_self : ChromaVector :=
  {| _collection_name := "vector_index_a_node";
     _client_config := scenario_config |}.

Definition scenario_query : list float := [literal 9 10; literal 1 10].

Definition scenario_kwargs : SearchKwargs :=
  {| kw_top_k := Some 2%Z; kw_score_threshold := Some (literal 1 2);
     kw_document_ids_filter := None |}.

Definition empty_world : World Collections :=
  {| cache := ∅; backend := ∅; next_uuid := 0; trace := [] |}.

(** The world in which the collection of the scenario has been provisioned
    within the last hour. *)
Definition cached_world : World Collections :=
  {| cache := {[cache_key (_collection_name scenario_self) := ("1", 3600%Z)]};
     backend := {[_collection_name scenario_self := ∅]};
     next_uuid := 0; trace := [] |}.

Definition scenario_texts : list Document :=
  [{| page_content := "a"; metadata := Some {["doc_id" := VStr "id-a"]} |};
   {| page_content := "b"; metadata := None |}].

Definition scenario_embeddings : list (list float) :=
  [[PyFloat.of_int 1; PyFloat.of_int 0]; [PyFloat.of_int 0; PyFloat.of_int 1]].

Definition scenario_uuid4 (n : nat) : string :=
  "uuid-" +:+ pretty n.

(** The world after the two Documents of the scenario have been indexed. *)
Definition indexed_world : World Collections :=
  (create (H := MemClient scenario_knn) "doc_id" scenario_uuid4 scenario_self
     scenario_texts scenario_embeddings empty_world).2.

(** A dataset that has never been indexed, and the settings of a local
    deployment. *)
Definition fresh_dataset : Dataset.t :=
  {| Dataset.id := "0B5C-11EF"; Dataset.index_struct := None |}.

Definition scenario_gen (dataset_id : string) : string :=
  "Vector_index_" +:+ dataset_id +:+ "_Node".

Definition scenario_settings : DifyConfig :=
  {| CHROMA_HOST := Some "localhost"; CHROMA_PORT := 8000;
     CHROMA_TENANT := None; CHROMA_DATABASE := None;
     CHROMA_AUTH_PROVIDER := None; CHROMA_AUTH_CREDENTIALS := None |}.

(** Three candidates, the first and the last at the same distance, and one
    candidate whose score is exactly the threshold. *)
Definition ties_knn (_ : gmap string Entry) (_ : list float) (_ : Z)
  (_ : option Where) : QueryResult :=
  {| qr_ids := Some [["x"; "y"; "z"; "t"]];
     qr_documents := Some [["x"; "y"; "z"; "t"]];
     qr_metadatas := Some [[∅; ∅; ∅; ∅]];
     qr_distances :=
       Some [[literal 3 10; literal 1 10; literal 3 10; literal 1 2]] |}.

(** The same candidates, of which the engine hands out the first
    [n_results]. *)
Definition capped_knn (_ : gmap string Entry) (_ : list float) (n_results : Z)
  (_ : option Where) : QueryResult :=
  {| qr_ids := Some [take (Z.to_nat n_results) ["x"; "y"; "z"; "t"]];
     qr_documents := Some [take (Z.to_nat n_results) ["x"; "y"; "z"; "t"]];
     qr_metadatas := Some [take (Z.to_nat n_results) [∅; ∅; ∅; ∅]];
     qr_distances :=
       Some [take (Z.to_nat n_results)
               [literal 3 10; literal 1 10; literal 3 10; literal 1 2]] |}.

Definition capped_kwargs : SearchKwargs :=
  {| kw_top_k := Some 3%Z; kw_score_threshold := Some (literal 1 2);
     kw_document_ids_filter := None |}.

Definition ties_kwargs : SearchKwargs :=
  {| kw_top_k := None; kw_score_threshold := Some (literal 1 2);
     kw_document_ids_filter := Some ["doc-42"] |}.

(** A response without documents, as an engine gives when they are not
    included. *)
Definition no_documents_knn (_ : gmap string Entry) (_ : list float) (_ : Z)
  (_ : option Where) : QueryResult :=
  {| qr_ids := Some [["a"]]; qr_documents := None;
     qr_metadatas := Some [[∅]]; qr_distances := Some [[literal 1 10]] |}.

(** Ascending order of keyed items, and keys that are numbers. *)
Definition key_le {A : Type} (x y : float * A) : Prop :=
  PyFloat.ltb (fst y) (fst x) = false.
Definition key_ok {A : Type} (x : float * A) : Prop :=
  PyFloat.is_nan (fst x) = false.

(** ** Further vocabulary: shapes of a response *)

(** Position [i] makes the loop of [search_by_vector] fail: it has no
    distance, or no metadata, or its score passes the threshold and it has no
    text. *)
Definition misaligned_at (documents : list string) (metadatas : list Metadata)
  (distances : list float) (score_threshold : float) (i : nat) : bool :=
  match distances !! i, metadatas !! i with
  | Some d, Some _ =>
      PyFloat.gtb (PyFloat.sub one d) score_threshold
      && match documents !! i with Some _ => false | None => true end
  | _, _ => true
  end.


(** A response in which the candidate below the threshold has no text, and
    the metadata of the other carries a document id and a stale score. *)
Definition short_documents_knn (_ : gmap string Entry) (_ : list float)
  (_ : Z) (_ : option Where) : QueryResult :=
  {| qr_ids := Some [["a"; "b"]];
     qr_documents := Some [["a"]];
     qr_metadatas :=
       Some [[{["document_id" := VStr "doc-42"; "score" := VInt 7]}; ∅]];
     qr_distances := Some [[literal 1 10; literal 14 10]] |}.

Definition nan_kwargs : SearchKwargs :=
  {| kw_top_k := Some 2%Z; kw_score_threshold := Some S754_nan;
     kw_document_ids_filter := None |}.

(** An event that concerns neither Redis nor its locks. *)
Definition engine_event (e : Event) : bool :=
  match e with
  | EvLockAcquire _ _ | EvLockRelease _ | EvCacheGet _ | EvCacheSet _ _ _ =>
      false
  | _ => true
  end.

(** Running [m] from [w] leaves the Redis key space as it is and issues
    calls on the engine only. *)
Definition leaves_redis {B A : Type} (m : M B A) (w : World B) : Prop :=
  cache (m w).2 = cache w /\
  exists events,
    trace (m w).2 = (trace w ++ events)%list /\
    forallb engine_event events = true.

(** Running [m] from [w] begins by a get-or-create of collection [name]. *)
Definition ensures_collection {B A : Type} (name : string) (m : M B A)
  (w : World B) : Prop :=
  exists events,
    trace (m w).2 =
    (trace w ++ EvGetOrCreateCollection name :: events)%list.

(** ** [ChromaConfig.to_chroma_params] *)

(** [chromadb.Settings], restricted to the two fields the adapter sets. *)
Record Settings : Type := {
  chroma_client_auth_provider : option string;
  chroma_client_auth_credentials : option string
}.

(** The keyword arguments [chromadb.HttpClient] is called with. *)
Record ChromaParams : Type := {
  params_host : string;
  params_port : Z;
  params_ssl : bool;
  params_tenant : string;
  params_database : string;
  params_settings : Settings
}.

Definition to_chroma_params (self : ChromaConfig) : ChromaParams :=
  let settings :=
    {| chroma_client_auth_provider := auth_provider self;
       chroma_client_auth_credentials := auth_credentials self |} in
  {| params_host := host self;
     params_port := port self;
     params_ssl := false;
     params_tenant := tenant self;
     params_database := database self;
     params_settings := settings |}.

(** A dataset indexed earlier, under a name in mixed case, and one whose
    index structure was written for another store. *)
Definition indexed_dataset : Dataset.t :=
  {| Dataset.id := "0B5C-11EF";
     Dataset.index_struct :=
       Some (JObject
               [("type", JString "chroma");
                ("vector_store",
                 JObject [("class_prefix", JString "Vector_Index_ABC_Node")])]) |}.

Definition foreign_dataset : Dataset.t :=
  {| Dataset.id := "0B5C-11EF";
     Dataset.index_struct := Some (JObject [("type", JString "keyword")]) |}.

(** * Application configuration entities

    Source: [api/core/app/app_config/entities.py]. *)

(** [ValueError(message)]. *)
Inductive ValueError : Type := mkValueError (message : string).

(** The loop of both [value_of] class methods:
    [for mode in cls: if mode.value == value: return mode]. *)
Fixpoint first_with_value {E : Type} (value_of_member : E -> string)
  (members : list E) (value : string) : option E :=
  match members with
  | [] => None
  | mode :: rest =>
      if String.eqb (value_of_member mode) value then Some mode
      else first_with_value value_of_member rest value
  end.

(** [PromptTemplateEntity.PromptType]. *)
Module PromptType.

Inductive t : Type := SIMPLE | ADVANCED.

Definition value (mode : t) : string :=
  match mode with
  | SIMPLE => "simple"
  | ADVANCED => "advanced"
  end.

(** The members, in the order of their definition. *)
Definition members : list t := [SIMPLE; ADVANCED].

Definition value_of (v : string) : ValueError + t :=
  match first_with_value value members v with
  | Some mode => inr mode
  | None => inl (mkValueError ("invalid prompt type value " +:+ v))
  end.

End PromptType.

(** [DatasetRetrieveConfigEntity.RetrieveStrategy]. *)
Module RetrieveStrategy.

Inductive t : Type := SINGLE | MULTIPLE.

Definition value (mode : t) : string :=
  match mode with
  | SINGLE => "single"
  | MULTIPLE => "multiple"
  end.

Definition members : list t := [SINGLE; MULTIPLE].

Definition value_of (v : string) : ValueError + t :=
  match first_with_value value members v with
  | Some mode => inr mode
  | None => inl (mkValueError ("invalid retrieve strategy value " +:+ v))
  end.

End RetrieveStrategy.

(** * Message cycle manager

    Source: [api/core/app/task_pipeline/message_cycle_manager.py]. *)

(** [sep in s] for a separator of one character. *)
Fixpoint contains (sep : ascii) (s : string) : bool :=
  match s with
  | EmptyString => false
  | String c s' => Ascii.eqb c sep || contains sep s'
  end.

(** [s.split(sep)] for a separator of one character: the pieces between
    the occurrences of [sep], empty pieces included; never the empty list. *)
Fixpoint split (sep : ascii) (s : string) : list string :=
  match s with
  | EmptyString => [EmptyString]
  | String c s' =>
      if Ascii.eqb c sep then EmptyString :: split sep s'
      else
        match split sep s' with
        | [] => [String c EmptyString]
        | piece :: pieces => String c piece :: pieces
        end
  end.

(** [len(s)], the number of characters of [s]: the bytes of its UTF-8
    encoding that do not continue a character (those outside 128-191). *)
Definition continues_character (c : ascii) : bool :=
  let n := nat_of_ascii c in (128 <=? n)%nat && (n <? 192)%nat.

Fixpoint py_len (s : string) : nat :=
  match s with
  | EmptyString => 0
  | String c s' => (if continues_character c then 0 else 1) + py_len s'
  end.

(** [pieces[0]] and [pieces[-1]] on the outcome of a split. *)
Definition first_piece (pieces : list string) : string := hd "" pieces.
Definition last_piece (pieces : list string) : string := List.last pieces "".

(** The columns of [models.model.MessageFile] the manager reads. *)
Module MessageFile.

Record t : Type := {
  id : string;
  type : string;
  belongs_to : option string;
  url : option string
}.

End MessageFile.

(** [core.app.entities.task_entities.MessageFileStreamResponse]. *)
Record MessageFileStreamResponse : Type := {
  response_task_id : string;
  response_id : string;
  response_type : string;
  response_belongs_to : string;
  response_url : string
}.

Section MessageCycleManager.

(** [self._application_generate_entity.task_id]. *)
Variable task_id : string.
(** [core.tools.signature.sign_tool_file(tool_file_id=..., extension=...)]. *)
Variable sign_tool_file : string -> string -> string.

(** [db.session.query(MessageFile).where(MessageFile.id == id).first()] on
    the rows of the table. *)
Definition first_message_file (rows : list MessageFile.t) (message_file_id : string)
  : option MessageFile.t :=
  List.find (fun row => String.eqb (MessageFile.id row) message_file_id) rows.

(** The tool file id and the extension [message_file_to_stream_response]
    reads off a url. *)
Definition tool_file_id_of (url : string) : string :=
  let tool_file_id := last_piece (split "/" url) in
  first_piece (split "." tool_file_id).

Definition extension_of (url : string) : string :=
  if contains "." url then
    let extension := "." +:+ last_piece (split "." url) in
    if (10 <? py_len extension)%nat then ".bin" else extension
  else ".bin".

Definition message_file_to_stream_response (rows : list MessageFile.t)
  (message_file_id : string) : option MessageFileStreamResponse :=
  match first_message_file rows message_file_id with
  | Some message_file =>
      match MessageFile.url message_file with
      | Some message_file_url =>
          let tool_file_id := tool_file_id_of message_file_url in
          let extension := extension_of message_file_url in
          let url :=
            if String.prefix "http" message_file_url then message_file_url
            else sign_tool_file tool_file_id extension in
          Some {| response_task_id := task_id;
                  response_id := MessageFile.id message_file;
                  response_type := MessageFile.type message_file;
                  response_belongs_to :=
                    or_else (MessageFile.belongs_to message_file) "user";
                  response_url := url |}
      | None => None
      end
  | None => None
  end.

End MessageCycleManager.

(** A row of the message-file table for a tool file kept locally. *)
Definition local_file : MessageFile.t :=
  {| MessageFile.id := "mf-1"; MessageFile.type := "image";
     MessageFile.belongs_to := None;
     MessageFile.url := Some "/files/tools/7f3a.png" |}.

(** A row whose url ends in an extension of five accented letters. *)
Definition accented_file : MessageFile.t :=
  {| MessageFile.id := "mf-2"; MessageFile.type := "image";
     MessageFile.belongs_to := Some "assistant";
     MessageFile.url := Some "/files/photo.ééééé" |}.

Definition scenario_sign (tool_file_id extension : string) : string :=
  "/signed/" +:+ tool_file_id +:+ extension.

(** ** The conversation-name worker *)

(** The columns of [models.model.App] and [models.model.Conversation] the
    worker reads and writes; [app] is the related row, if there is one. *)
Module App.

Record t : Type := { tenant_id : string }.

End App.

Module Conversation.

Record t : Type := {
  id : string;
  mode : string;
  name : string;
  app : option App.t
}.

Definition set_name (conversation : t) (new_name : string) : t :=
  {| id := id conversation; mode := mode conversation; name := new_name;
     app := app conversation |}.

End Conversation.

(** What the worker asks of the database session and of the logger. *)
Inductive SessionEvent : Type :=
| LogException (conversation_id : string)
| SessionMerge (conversation : Conversation.t)
| SessionCommit
| SessionClose.

(** The conversation table and the calls made on the session so far. *)
Record Database : Type := {
  conversations : list Conversation.t;
  session_log : list SessionEvent
}.

(** [db.session.query(Conversation).where(Conversation.id == id).first()]. *)
Definition first_conversation (rows : list Conversation.t)
  (conversation_id : string) : option Conversation.t :=
  List.find (fun row => String.eqb (Conversation.id row) conversation_id) rows.

(** The table once the object [first()] returned has been written back. *)
Fixpoint write_back (conversation_id : string) (conversation : Conversation.t)
  (rows : list Conversation.t) : list Conversation.t :=
  match rows with
  | [] => []
  | row :: rest =>
      if String.eqb (Conversation.id row) conversation_id
      then conversation :: rest
      else row :: write_back conversation_id conversation rest
  end.

Section Worker.

(** [AppMode.COMPLETION.value], declared in [models/model.py]. *)
Variable AppMode_COMPLETION : string.
(** [LLMGenerator.generate_conversation_name(tenant_id, query)]; [None]
    stands for any exception it raises. *)
Variable generate_conversation_name : string -> string -> option string.
(** [dify_config.DEBUG]. *)
Variable DEBUG : bool.

Definition _generate_conversation_name_worker (conversation_id query : string)
  (db : Database) : Database :=
  match first_conversation (conversations db) conversation_id with
  | None => db
  | Some conversation =>
      if negb (String.eqb (Conversation.mode conversation) AppMode_COMPLETION)
      then
        match Conversation.app conversation with
        | None => db
        | Some app_model =>
            let '(conversation1, logged) :=
              match generate_conversation_name (App.tenant_id app_model) query
              with
              | Some name => (Conversation.set_name conversation name, [])
              | None =>
                  (conversation,
                   if DEBUG then [LogException conversation_id] else [])
              end in
            {| conversations :=
                 write_back conversation_id conversation1 (conversations db);
               session_log :=
                 session_log db ++ logged ++
                 [SessionMerge conversation1; SessionCommit; SessionClose] |}
        end
      else db
  end.

End Worker.

(** A chat conversation still without a name of its own, and a generator
    that is down. *)
Definition chat_rows : list Conversation.t :=
  [{| Conversation.id := "c-0"; Conversation.mode := "completion";
      Conversation.name := "New conversation"; Conversation.app := None |};
   {| Conversation.id := "c-1"; Conversation.mode := "chat";
      Conversation.name := "New conversation";
      Conversation.app := Some {| App.tenant_id := "t-1" |} |}].

Definition chat_db : Database :=
  {| conversations := chat_rows; session_log := [] |}.

Definition failing_generator (_ _ : string) : option string := None.
Definition echo_generator (_ query : string) : option string := Some query.

(** ** Order on floats *)

Ltac cmp_split :=
  repeat match goal with
  | H : context [Pos.compare_cont Eq ?a ?b] |- _ =>
      change (Pos.compare_cont Eq a b) with (Pos.compare a b) in H
  | |- context [Pos.compare_cont Eq ?a ?b] =>
      change (Pos.compare_cont Eq a b) with (Pos.compare a b)
  end;
  repeat match goal with
  | H : context [Z.compare ?a ?b] |- _ => destruct (Z.compare_spec a b)
  | |- context [Z.compare ?a ?b] => destruct (Z.compare_spec a b)
  | H : context [Pos.compare ?a ?b] |- _ => destruct (Pos.compare_spec a b)
  | |- context [Pos.compare ?a ?b] => destruct (Pos.compare_spec a b)
  end.

Ltac float_cases :=
  unfold PyFloat.ltb, PyFloat.gtb, PyFloat.eqb, PyFloat.leb, PyFloat.is_nan,
    SFltb, SFeqb, SFleb, SFcompare;
  intros;
  repeat match goal with
  | x : PyFloat.float |- _ => destruct x
  | x : spec_float |- _ => destruct x
  | b : bool |- _ => destruct b
  end; simpl in *; try congruence; try done;
  cmp_split; simpl in *; subst; try congruence; try lia.

Lemma ltb_not_nan_l x y : PyFloat.ltb x y = true -> PyFloat.is_nan x = false.
Proof. float_cases. Qed.

Lemma ltb_not_nan_r x y : PyFloat.ltb x y = true -> PyFloat.is_nan y = false.
Proof. float_cases. Qed.

Lemma ltb_asym x y : PyFloat.ltb x y = true -> PyFloat.ltb y x = false.
Proof. float_cases. Qed.

Lemma ltb_neg_trans x y z :
  PyFloat.is_nan x = false -> PyFloat.is_nan y = false ->
  PyFloat.is_nan z = false ->
  PyFloat.ltb y x = false -> PyFloat.ltb z y = false -> PyFloat.ltb z x = false.
Proof. float_cases. Qed.

Lemma eqb_ltb_apart s x y :
  PyFloat.eqb x s = true -> PyFloat.ltb y x = true -> PyFloat.eqb y s = false.
Proof. float_cases. Qed.

Lemma leb_of_not_ltb x y :
  PyFloat.is_nan x = false -> PyFloat.is_nan y = false ->
  PyFloat.ltb x y = false -> PyFloat.leb y x = true.
Proof. float_cases. Qed.

(** ** The stable sort *)

Section StableSort.

Context {A : Type}.
Implicit Types (x : float * A) (l : list (float * A)).

Lemma insert_by_key_perm x l : insert_by_key x l ≡ₚ x :: l.
Proof.
  induction l as [|y l IH]; simpl; [done|].
  destruct (PyFloat.ltb y.1 x.1); [|done].
  rewrite IH. apply Permutation_swap.
Qed.

Lemma stable_sort_perm l : stable_sort l ≡ₚ l.
Proof.
  induction l as [|x l IH]; simpl; [done|].
  rewrite insert_by_key_perm. by rewrite IH.
Qed.

Lemma insert_by_key_sorted x l :
  key_ok x -> Forall key_ok l ->
  StronglySorted key_le l -> StronglySorted key_le (insert_by_key x l).
Proof.
  intros Hx Hl Hs. induction l as [|y l IH]; simpl.
  - repeat constructor.
  - inversion Hs as [|? ? Hs' Hy]; subst.
    inversion Hl as [|? ? Hyok Hl']; subst.
    destruct (PyFloat.ltb y.1 x.1) eqn:E.
    + constructor; [by apply IH|].
      rewrite insert_by_key_perm. constructor; [|done].
      by apply ltb_asym.
    + constructor; [by constructor|].
      constructor; [done|].
      rewrite Forall_forall in Hy, Hl' |- *. intros z Hz.
      specialize (Hy z Hz). specialize (Hl' z Hz).
      unfold key_le, key_ok in *.
      by apply (ltb_neg_trans x.1 y.1 z.1).
Qed.

Lemma stable_sort_sorted l :
  Forall key_ok l -> StronglySorted key_le (stable_sort l).
Proof.
  induction 1 as [|x l Hx Hl IH]; simpl; [constructor|].
  apply insert_by_key_sorted; auto.
  by rewrite stable_sort_perm.
Qed.

Lemma insert_by_key_filter s x l :
  List.filter (fun y => PyFloat.eqb y.1 s) (insert_by_key x l) =
  List.filter (fun y => PyFloat.eqb y.1 s) (x :: l).
Proof.
  induction l as [|y l IH]; [done|].
  cbn [insert_by_key]. destruct (PyFloat.ltb y.1 x.1) eqn:E; [|done].
  cbn [List.filter] in *. rewrite IH.
  destruct (PyFloat.eqb x.1 s) eqn:Ex; [|done].
  by rewrite (eqb_ltb_apart s x.1 y.1).
Qed.

Lemma stable_sort_filter s l :
  List.filter (fun y => PyFloat.eqb y.1 s) (stable_sort l) =
  List.filter (fun y => PyFloat.eqb y.1 s) l.
Proof.
  induction l as [|x l IH]; [done|].
  cbn [stable_sort foldr]. rewrite insert_by_key_filter.
  cbn [List.filter]. fold (stable_sort l). by rewrite IH.
Qed.

Lemma StronglySorted_rev (R : relation (float * A)) l :
  StronglySorted R l -> StronglySorted (flip R) (rev l).
Proof.
  induction 1 as [|x l Hs IH Hx]; simpl; [constructor|].
  apply StronglySorted_app_2; [|done|repeat constructor].
  intros a b Ha Hb. apply list_elem_of_singleton in Hb as ->.
  rewrite Forall_forall in Hx. apply Hx.
  apply list_elem_of_In. apply list_elem_of_In in Ha. by apply in_rev.
Qed.

End StableSort.

Lemma StronglySorted_map_on {A C : Type} (R1 : relation A) (R2 : relation C)
  (P : A -> Prop) (f : A -> C) (l : list A) :
  (forall a b, P a -> P b -> R1 a b -> R2 (f a) (f b)) ->
  Forall P l -> StronglySorted R1 l -> StronglySorted R2 (map f l).
Proof.
  intros HR HP Hs. induction Hs as [|x l Hs IH Hx]; simpl; [constructor|].
  inversion HP as [|? ? Px Pl]; subst.
  constructor; [by apply IH|].
  apply Forall_forall. intros c Hc.
  rewrite Forall_forall in Hx. rewrite Forall_forall in Pl. apply list_elem_of_In, in_map_iff in Hc as (a & <- & Ha).
  apply list_elem_of_In in Ha. apply HR; auto.
Qed.

(** ** [sorted(..., reverse=True)] *)

Section SortedReverse.

Context {A : Type} (key : A -> result float).

Lemma decorate_ok (l : list A) :
  Forall (fun x => exists k, key x = Ok k) l ->
  exists keyed, decorate key l = Ok keyed /\ map snd keyed = l /\
                Forall (fun kx => key kx.2 = Ok kx.1) keyed.
Proof.
  induction 1 as [|x l [k Hk] Hl (keyed & Hd & Hm & Hf)]; simpl.
  - exists []. by repeat split.
  - exists ((k, x) :: keyed). rewrite Hk, Hd. simpl.
    repeat split; [by rewrite Hm|]. by constructor.
Qed.

Lemma sorted_reverse_spec (l : list A) :
  Forall (fun x => exists k, key x = Ok k /\ PyFloat.is_nan k = false) l ->
  exists out,
    sorted_reverse key l = Ok out /\
    out ≡ₚ l /\
    StronglySorted
      (fun a b => exists ka kb, key a = Ok ka /\ key b = Ok kb /\
                                PyFloat.leb kb ka = true) out /\
    forall s,
      List.filter (fun x => match key x with
                            | Ok k => PyFloat.eqb k s
                            | Raise _ => false
                            end) out =
      List.filter (fun x => match key x with
                            | Ok k => PyFloat.eqb k s
                            | Raise _ => false
                            end) l.
Proof.
  intros Hl.
  destruct (decorate_ok l) as (keyed & Hd & Hm & Hf).
  { eapply Forall_impl; [exact Hl|]. intros x (k & Hk & _). eauto. }
  assert (Hnan : Forall key_ok keyed).
  { rewrite <- Hm in Hl. apply Forall_forall. intros kx Hkx.
    rewrite Forall_forall in Hl. rewrite Forall_forall in Hf. destruct (Hl kx.2) as (k & Hk & Hn).
    - apply list_elem_of_In, in_map, list_elem_of_In, Hkx.
    - rewrite (Hf kx Hkx) in Hk. injection Hk as <-. exact Hn. }
  set (sorted := rev (stable_sort (rev keyed))).
  assert (Hperm : sorted ≡ₚ keyed).
  { unfold sorted. by rewrite <- Permutation_rev, stable_sort_perm,
      <- Permutation_rev. }
  exists (map snd sorted). unfold sorted_reverse. rewrite Hd. simpl.
  split; [done|]. split; [by rewrite Hperm, Hm|]. split.
  - apply (StronglySorted_map_on (flip key_le)
             _ (fun kx => key kx.2 = Ok kx.1 /\ key_ok kx)).
    + intros a b [Ha Na] [Hb Nb] Hab. exists a.1, b.1.
      repeat split; auto. by apply leb_of_not_ltb.
    + rewrite Hperm. apply Forall_forall. intros kx Hkx.
      rewrite Forall_forall in Hf. rewrite Forall_forall in Hnan. auto.
    + apply StronglySorted_rev, stable_sort_sorted.
      by rewrite <- Permutation_rev.
  - intros s. rewrite <- Hm, !filter_map_swap. f_equal.
    transitivity (List.filter (fun y : float * A => PyFloat.eqb y.1 s) sorted).
    { apply filter_ext_in. intros kx Hkx.
      apply list_elem_of_In in Hkx. rewrite Hperm in Hkx.
      rewrite Forall_forall in Hf. by rewrite (Hf kx Hkx). }
    transitivity (List.filter (fun y : float * A => PyFloat.eqb y.1 s) keyed).
    { unfold sorted. by rewrite filter_rev, stable_sort_filter, filter_rev,
        rev_involutive. }
    apply filter_ext_in. intros kx Hkx.
    apply list_elem_of_In in Hkx.
    rewrite Forall_forall in Hf. by rewrite (Hf kx Hkx).
Qed.

End SortedReverse.

(** ** Result assembly *)

Lemma collect_spec documents metadatas distances thr idxs acc :
  Forall (fun i => i < length documents /\ i < length metadatas /\
                   i < length distances)%nat idxs ->
  collect documents metadatas distances thr idxs acc =
  Ok (acc ++ omap (candidate_at documents metadatas distances thr) idxs)%list.
Proof.
  intros Hidx. revert acc.
  induction Hidx as [|i idxs (Hd & Hm & Hs) _ IH]; intros acc; simpl.
  - by rewrite app_nil_r.
  - apply lookup_lt_is_Some in Hd as [text Ht].
    apply lookup_lt_is_Some in Hm as [m Hm].
    apply lookup_lt_is_Some in Hs as [d Hd].
    unfold subscript, candidate_at. rewrite Ht, Hm, Hd. simpl.
    destruct (PyFloat.gtb (PyFloat.sub one d) thr); simpl.
    + rewrite IH. by rewrite <- app_assoc.
    + apply IH.
Qed.

Lemma score_key_candidate text m d :
  score_key (candidate text m d) = Ok (PyFloat.sub one d).
Proof. unfold score_key, candidate. simpl. by rewrite lookup_insert_eq. Qed.

Lemma elem_of_retained documents metadatas distances thr n doc :
  doc ∈ retained documents metadatas distances thr n <->
  exists i text m d,
    (i < n)%nat /\ documents !! i = Some text /\ metadatas !! i = Some m /\
    distances !! i = Some d /\
    PyFloat.gtb (PyFloat.sub one d) thr = true /\ doc = candidate text m d.
Proof.
  unfold retained. rewrite list_elem_of_omap. split.
  - intros (i & Hi & Hc). apply elem_of_seq in Hi. unfold candidate_at in Hc.
    destruct (documents !! i) as [text|] eqn:Ht; [|done].
    destruct (metadatas !! i) as [m|] eqn:Hm; [|done].
    destruct (distances !! i) as [d|] eqn:Hd; [|done].
    destruct (PyFloat.gtb (PyFloat.sub one d) thr) eqn:Hg; [|done].
    injection Hc as <-. exists i, text, m, d. repeat split; auto. lia.
  - intros (i & text & m & d & Hi & Ht & Hm & Hd & Hg & ->).
    exists i. split; [apply elem_of_seq; lia|].
    unfold candidate_at. by rewrite Ht, Hm, Hd, Hg.
Qed.

Lemma retained_keys documents metadatas distances thr n :
  Forall (fun x => exists k, score_key x = Ok k /\ PyFloat.is_nan k = false)
    (retained documents metadatas distances thr n).
Proof.
  apply Forall_forall. intros doc Hdoc.
  apply elem_of_retained in Hdoc as (i & text & m & d & _ & _ & _ & _ & Hg & ->).
  exists (PyFloat.sub one d). split; [apply score_key_candidate|].
  by apply (ltb_not_nan_r thr).
Qed.

Lemma assemble_spec results thr ids ri documents rd metadatas rm distances rs :
  qr_ids results = Some (ids :: ri) ->
  qr_documents results = Some (documents :: rd) ->
  qr_metadatas results = Some (metadatas :: rm) ->
  qr_distances results = Some (distances :: rs) ->
  (length ids <= length documents)%nat ->
  (length ids <= length metadatas)%nat ->
  (length ids <= length distances)%nat ->
  exists docs,
    assemble results thr = Ok docs /\
    docs ≡ₚ retained documents metadatas distances thr (length ids) /\
    StronglySorted score_ge docs /\
    forall s, List.filter (has_score s) docs =
              List.filter (has_score s)
                (retained documents metadatas distances thr (length ids)).
Proof.
  intros Hi Hd Hm Hs Ld Lm Ls.
  destruct (sorted_reverse_spec score_key
              (retained documents metadatas distances thr (length ids)))
    as (docs & Hsort & Hperm & Hsorted & Hstable).
  { apply retained_keys. }
  exists docs. split; [|by repeat split].
  unfold assemble. rewrite Hi, Hd, Hm, Hs. simpl.
  rewrite collect_spec; [exact Hsort|].
  apply Forall_forall. intros i Hin. apply elem_of_seq in Hin. lia.
Qed.

Lemma assemble_absent results thr :
  absent_or_empty (qr_ids results) \/ absent_or_empty (qr_documents results) \/
  absent_or_empty (qr_metadatas results) \/
  absent_or_empty (qr_distances results) ->
  assemble results thr = Ok [].
Proof.
  unfold assemble, absent_or_empty.
  intros [[-> | ->] | [[-> | ->] | [[-> | ->] | [-> | ->]]]]; simpl;
    rewrite ?orb_true_r; try reflexivity;
    repeat match goal with
    | |- context [truthy_list ?o] => destruct (truthy_list o); simpl
    end; reflexivity.
Qed.

(** ** Running the methods *)

Ltac run_M :=
  unfold get_or_create_collection, delete_collection, upsert, delete_from,
    get_from, query, redis_get, redis_set, with_lock, log, on_backend,
    ask_backend, modify, gets, lift;
  unfold mbind, mret, M_bind, M_ret; simpl.

Section Runs.

Context {B : Type} `{ChromaClient B}.

Lemma search_by_vector_run (self : ChromaVector) qv kwargs (w : World B) :
  search_by_vector self qv kwargs w =
  (assemble (response_of self qv kwargs (backend w)) (threshold_of kwargs),
   after w (client_get_or_create_collection (_collection_name self) (backend w))
     [EvGetOrCreateCollection (_collection_name self);
      EvQuery (_collection_name self) qv (n_results_of kwargs)
        (where_of kwargs)]).
Proof.
  unfold search_by_vector, response_of, where_of, after.
  destruct (truthy_list (kw_document_ids_filter kwargs)); run_M;
    by rewrite <- app_assoc.
Qed.

End Runs.

Lemma length_omap_le {A C : Type} (f : A -> option C) (l : list A) :
  (length (omap f l) <= length l)%nat.
Proof.
  induction l as [|x l IH]; csimpl; [lia|].
  destruct (f x); simpl; lia.
Qed.

Lemma candidate_score_inj text m d text' m' d' :
  candidate text m d = candidate text' m' d' ->
  PyFloat.sub one d = PyFloat.sub one d'.
Proof.
  intros Heq. injection Heq as _ Hm.
  assert (Hl : (<["score" := VFloat (PyFloat.sub one d)]> m : Metadata) !! "score" =
               (<["score" := VFloat (PyFloat.sub one d')]> m' : Metadata) !! "score")
    by (by rewrite Hm).
  rewrite !lookup_insert_eq in Hl. by injection Hl.
Qed.

(** The score and the threshold of the code, in the terms of IEEE-754. *)

Lemma one_eq : one = SFone 53 1024.
Proof. vm_compute. reflexivity. Qed.

Lemma candidate_eq text m d :
  candidate text m d =
  {| page_content := text;
     metadata :=
       Some (<["score" := VFloat (SFsub 53 1024 (SFone 53 1024) d)]> m) |}.
Proof. unfold candidate, PyFloat.sub. by rewrite one_eq. Qed.

Lemma gtb_threshold_of (kwargs : SearchKwargs) (x : float) :
  PyFloat.gtb x (threshold_of kwargs) =
  SFltb (match kw_score_threshold kwargs with
         | Some t => t
         | None => S754_zero false
         end) x.
Proof.
  unfold threshold_of, PyFloat.gtb.
  destruct (kw_score_threshold kwargs) as [t|]; [|done].
  destruct (PyFloat.truthy t) eqn:Ht; [done|].
  destruct t as [sg|sg| |sg m e]; [by destruct x| | |];
    by (try destruct sg; cbv in Ht).
Qed.

Lemma retained_ext documents metadatas distances thr thr' n :
  (forall x, PyFloat.gtb x thr = PyFloat.gtb x thr') ->
  retained documents metadatas distances thr n =
  retained documents metadatas distances thr' n.
Proof.
  intros Hext. unfold retained.
  induction (seq 0 n) as [|i l IH]; [done|]. csimpl. rewrite IH.
  unfold candidate_at.
  destruct (documents !! i), (metadatas !! i), (distances !! i); try done.
  by rewrite Hext.
Qed.

Lemma retained_eq documents metadatas distances (kwargs : SearchKwargs) n :
  retained documents metadatas distances (threshold_of kwargs) n =
  omap (fun i =>
          match documents !! i, metadatas !! i, distances !! i with
          | Some text, Some m, Some d =>
              if SFltb (match kw_score_threshold kwargs with
                        | Some t => t
                        | None => S754_zero false
                        end)
                       (SFsub 53 1024 (SFone 53 1024) d)
              then Some {| page_content := text;
                           metadata :=
                             Some (<["score" :=
                                       VFloat (SFsub 53 1024 (SFone 53 1024) d)]>
                                     m) |}
              else None
          | _, _, _ => None
          end) (seq 0 n).
Proof.
  unfold retained.
  induction (seq 0 n) as [|i l IH]; [done|]. csimpl. rewrite IH.
  unfold candidate_at.
  destruct (documents !! i), (metadatas !! i), (distances !! i); try done.
  rewrite gtb_threshold_of, candidate_eq. unfold PyFloat.sub.
  by rewrite one_eq.
Qed.

Lemma scored_candidate s text m d :
  scored s (candidate text m d) = SFeqb (PyFloat.sub one d) s.
Proof. unfold scored, candidate. simpl. by rewrite lookup_insert_eq. Qed.

Lemma has_score_candidate s text m d :
  has_score s (candidate text m d) = SFeqb (PyFloat.sub one d) s.
Proof. unfold has_score. by rewrite score_key_candidate. Qed.

Lemma filter_scored_retained s documents metadatas distances thr n docs :
  docs ≡ₚ retained documents metadatas distances thr n ->
  List.filter (has_score s) docs = List.filter (scored s) docs.
Proof.
  intros Hperm. apply filter_ext_in. intros doc Hin.
  apply list_elem_of_In in Hin. rewrite Hperm in Hin.
  apply elem_of_retained in Hin as (i & text & m & d & _ & _ & _ & _ & _ & ->).
  by rewrite has_score_candidate, scored_candidate.
Qed.

(** ** Properties of [search_by_vector] *)

Section SearchByVector.

Context {B : Type} `{ChromaClient B}.
Variables (self : ChromaVector) (query_vector : list float)
  (kwargs : SearchKwargs) (w : World B).
Variables (ids : list string) (documents : list string)
  (metadatas : list Metadata) (distances : list float).
Variables (ri : list (list string)) (rd : list (list string))
  (rm : list (list Metadata)) (rs : list (list float)).

Lemma search_by_vector_retained :
  qr_ids (response_of self query_vector kwargs (backend w)) = Some (ids :: ri) ->
  qr_documents (response_of self query_vector kwargs (backend w)) =
    Some (documents :: rd) ->
  qr_metadatas (response_of self query_vector kwargs (backend w)) =
    Some (metadatas :: rm) ->
  qr_distances (response_of self query_vector kwargs (backend w)) =
    Some (distances :: rs) ->
  (length ids <= length documents)%nat ->
  (length ids <= length metadatas)%nat ->
  (length ids <= length distances)%nat ->
  exists docs,
    (search_by_vector self query_vector kwargs w).1 = Ok docs /\
    (forall i text m d,
        (i < length ids)%nat -> documents !! i = Some text ->
        metadatas !! i = Some m -> distances !! i = Some d ->
        (candidate text m d ∈ docs <->
         PyFloat.gtb (PyFloat.sub one d) (threshold_of kwargs) = true)) /\
    (forall doc, doc ∈ docs ->
        exists i text m d,
          (i < length ids)%nat /\ documents !! i = Some text /\
          metadatas !! i = Some m /\ distances !! i = Some d /\
          doc = candidate text m d /\
          PyFloat.gtb (PyFloat.sub one d) (threshold_of kwargs) = true).
Proof.
  intros Hi Hd Hm Hs Ld Lm Ls.
  destruct (assemble_spec _ (threshold_of kwargs) _ _ _ _ _ _ _ _
              Hi Hd Hm Hs Ld Lm Ls) as (docs & Hrun & Hperm & _ & _).
  exists docs. rewrite search_by_vector_run. simpl.
  split; [exact Hrun|]. split.
  - intros i text m d Hlt Ht Hmd Hdist. rewrite Hperm, elem_of_retained. split.
    + intros (j & text' & m' & d' & _ & _ & _ & _ & Hg & Heq).
      by rewrite (candidate_score_inj _ _ _ _ _ _ Heq).
    + intros Hg. exists i, text, m, d. by repeat split.
  - intros doc Hdoc. rewrite Hperm in Hdoc.
    apply elem_of_retained in Hdoc
      as (i & text & m & d & Hlt & Ht & Hmd & Hdist & Hg & ->).
    exists i, text, m, d. by repeat split.
Qed.

(** C1.  When the response carries its four fields and the inner arrays
    cover the candidates, [search_by_vector] returns a sequence in which the
    Document of a candidate with distance [d] occurs if and only if
    [1 - d] is strictly greater than the [score_threshold] the caller passed
    ([0.0] when none was passed), and every returned Document is such a
    candidate's, with [1 - d] stored under [metadata["score"]].  Score and
    comparison are those of IEEE-754 binary64. *)
Theorem search_by_vector_threshold :
  qr_ids (response_of self query_vector kwargs (backend w)) = Some (ids :: ri) ->
  qr_documents (response_of self query_vector kwargs (backend w)) =
    Some (documents :: rd) ->
  qr_metadatas (response_of self query_vector kwargs (backend w)) =
    Some (metadatas :: rm) ->
  qr_distances (response_of self query_vector kwargs (backend w)) =
    Some (distances :: rs) ->
  (length ids <= length documents)%nat ->
  (length ids <= length metadatas)%nat ->
  (length ids <= length distances)%nat ->
  exists docs,
    (search_by_vector self query_vector kwargs w).1 = Ok docs /\
    (forall i text m d,
        (i < length ids)%nat -> documents !! i = Some text ->
        metadatas !! i = Some m -> distances !! i = Some d ->
        ({| page_content := text;
            metadata :=
              Some (<["score" := VFloat (SFsub 53 1024 (SFone 53 1024) d)]> m)
         |} ∈ docs <->
         SFltb (match kw_score_threshold kwargs with
                | Some t => t
                | None => S754_zero false
                end)
               (SFsub 53 1024 (SFone 53 1024) d) = true)) /\
    (forall doc, doc ∈ docs ->
        exists i text m d,
          (i < length ids)%nat /\ documents !! i = Some text /\
          metadatas !! i = Some m /\ distances !! i = Some d /\
          doc = {| page_content := text;
                   metadata :=
                     Some (<["score" :=
                               VFloat (SFsub 53 1024 (SFone 53 1024) d)]> m) |} /\
          SFltb (match kw_score_threshold kwargs with
                 | Some t => t
                 | None => S754_zero false
                 end)
                (SFsub 53 1024 (SFone 53 1024) d) = true /\
          metadata doc ≫= (fun md => md !! "score") =
            Some (VFloat (SFsub 53 1024 (SFone 53 1024) d))).
Proof.
  intros Hi Hd Hm Hs Ld Lm Ls.
  destruct (search_by_vector_retained Hi Hd Hm Hs Ld Lm Ls)
    as (docs & Hrun & Hiff & Hall).
  exists docs. split; [exact Hrun|]. split.
  - intros i text m d Hlt Ht Hmd Hdist.
    specialize (Hiff i text m d Hlt Ht Hmd Hdist).
    rewrite candidate_eq, gtb_threshold_of in Hiff.
    unfold PyFloat.sub in Hiff. rewrite one_eq in Hiff. exact Hiff.
  - intros doc Hdoc.
    destruct (Hall doc Hdoc) as (i & text & m & d & Hlt & Ht & Hmd & Hdist & Heq & Hg).
    exists i, text, m, d.
    rewrite candidate_eq in Heq. rewrite gtb_threshold_of in Hg.
    unfold PyFloat.sub in Hg. rewrite one_eq in Hg.
    split_and!; try done.
    rewrite Heq. cbn [metadata mbind option_bind].
    by rewrite lookup_insert_eq.
Qed.

(** C2.  The code hands [top_k] (4 when none is passed) to the engine as
    [n_results] and keeps a subset of what comes back: with an engine that
    honours [n_results], [search_by_vector] returns at most [top_k]
    Documents.  They are sorted by descending [metadata["score"]], and the
    Documents of equal score stand in the order the backend gave them: for
    every score, the returned Documents that carry it are, in this order,
    the candidates of the response that carry it and pass the threshold. *)
Theorem search_by_vector_top_k_sorted_stable :
  honours_n_results ->
  qr_ids (response_of self query_vector kwargs (backend w)) = Some (ids :: ri) ->
  qr_documents (response_of self query_vector kwargs (backend w)) =
    Some (documents :: rd) ->
  qr_metadatas (response_of self query_vector kwargs (backend w)) =
    Some (metadatas :: rm) ->
  qr_distances (response_of self query_vector kwargs (backend w)) =
    Some (distances :: rs) ->
  (length ids <= length documents)%nat ->
  (length ids <= length metadatas)%nat ->
  (length ids <= length distances)%nat ->
  exists docs,
    (search_by_vector self query_vector kwargs w).1 = Ok docs /\
    (length docs <=
     Z.to_nat (match kw_top_k kwargs with Some k => k | None => 4%Z end))%nat /\
    StronglySorted
      (fun doc1 doc2 =>
         exists m1 m2 s1 s2,
           metadata doc1 = Some m1 /\ m1 !! "score" = Some (VFloat s1) /\
           metadata doc2 = Some m2 /\ m2 !! "score" = Some (VFloat s2) /\
           SFleb s2 s1 = true) docs /\
    forall s,
      List.filter
        (fun doc =>
           match metadata doc with
           | Some m =>
               match m !! "score" with
               | Some (VFloat k) => SFeqb k s
               | _ => false
               end
           | None => false
           end) docs =
      List.filter
        (fun doc =>
           match metadata doc with
           | Some m =>
               match m !! "score" with
               | Some (VFloat k) => SFeqb k s
               | _ => false
               end
           | None => false
           end)
        (omap (fun i =>
                 match documents !! i, metadatas !! i, distances !! i with
                 | Some text, Some m, Some d =>
                     if SFltb (match kw_score_threshold kwargs with
                               | Some t => t
                               | None => S754_zero false
                               end)
                              (SFsub 53 1024 (SFone 53 1024) d)
                     then Some {| page_content := text;
                                  metadata :=
                                    Some (<["score" :=
                                              VFloat (SFsub 53 1024
                                                        (SFone 53 1024) d)]>
                                            m) |}
                     else None
                 | _, _, _ => None
                 end) (seq 0 (length ids))).
Proof.
  intros Hcap Hi Hd Hm Hs Ld Lm Ls.
  destruct (assemble_spec _ (threshold_of kwargs) _ _ _ _ _ _ _ _
              Hi Hd Hm Hs Ld Lm Ls) as (docs & Hrun & Hperm & Hsorted & Hst).
  exists docs. rewrite search_by_vector_run. simpl.
  split; [exact Hrun|]. split_and!.
  - apply Hcap in Hi. unfold n_results_of in Hi.
    rewrite Hperm. unfold retained.
    pose proof (length_omap_le
      (candidate_at documents metadatas distances (threshold_of kwargs))
      (seq 0 (length ids))) as Hle.
    rewrite length_seq in Hle.
    destruct (kw_top_k kwargs); simpl in Hi; lia.
  - rewrite <- (map_id docs).
    apply (StronglySorted_map_on score_ge _
             (fun doc => exists text m d, doc = candidate text m d)); [|  |done].
    + intros a b (ta & ma & da & ->) (tb & mb & db & ->) (s1 & s2 & H1 & H2 & Hle).
      rewrite score_key_candidate in H1, H2.
      injection H1 as <-. injection H2 as <-.
      eexists _, _, _, _. simpl.
      split_and!; [done|by rewrite lookup_insert_eq|done|
                   by rewrite lookup_insert_eq|exact Hle].
    + apply Forall_forall. intros doc Hdoc. rewrite Hperm in Hdoc.
      apply elem_of_retained in Hdoc
        as (i & text & m & d & _ & _ & _ & _ & _ & ->). eauto.
  - intros s. rewrite <- retained_eq.
    change (List.filter (scored s) docs =
            List.filter (scored s)
              (retained documents metadatas distances (threshold_of kwargs)
                 (length ids))).
    rewrite <- (filter_scored_retained s _ _ _ _ _ _ Hperm), Hst.
    by rewrite (filter_scored_retained s documents metadatas distances
                  (threshold_of kwargs) (length ids)).
Qed.

(** C3.  When the ids, documents, metadatas or distances field of the
    response is absent or empty, [search_by_vector] returns the empty
    sequence; it raises nothing. *)
Theorem search_by_vector_absent_fields :
  absent_or_empty (qr_ids (response_of self query_vector kwargs (backend w))) \/
  absent_or_empty
    (qr_documents (response_of self query_vector kwargs (backend w))) \/
  absent_or_empty
    (qr_metadatas (response_of self query_vector kwargs (backend w))) \/
  absent_or_empty
    (qr_distances (response_of self query_vector kwargs (backend w))) ->
  (search_by_vector self query_vector kwargs w).1 = Ok [].
Proof.
  intros Habs. rewrite search_by_vector_run. simpl.
  by apply assemble_absent.
Qed.

End SearchByVector.

(** The scenario of the specification: only ["a"] is returned, with score
    [1 - 0.1], which is the float [0.9]; the score of ["b"] is negative. *)
Example scenario_search :
  (search_by_vector (H := MemClient scenario_knn) scenario_self scenario_query
     scenario_kwargs empty_world).1 =
  Ok [candidate "a" ∅ (literal 1 10)] /\
  PyFloat.sub one (literal 1 10) = literal 9 10 /\
  PyFloat.ltb (PyFloat.sub one (literal 14 10)) PyFloat.zero = true.
Proof. repeat split; vm_compute; reflexivity. Qed.

(** Equal scores keep the order of the backend (["x"] before ["z"]); the
    candidate whose score equals the threshold is left out. *)
Example ties_search :
  (search_by_vector (H := MemClient ties_knn) scenario_self scenario_query
     ties_kwargs empty_world).1 =
  Ok [candidate "y" ∅ (literal 1 10); candidate "x" ∅ (literal 3 10);
      candidate "z" ∅ (literal 3 10)] /\
  PyFloat.sub one (literal 1 2) = literal 1 2.
Proof. split; vm_compute; reflexivity. Qed.

Lemma search_by_vector_threshold_witness :
  exists docs,
    (search_by_vector (H := MemClient ties_knn) scenario_self scenario_query
       ties_kwargs empty_world).1 = Ok docs /\
    (forall i text m d,
        (i < 4)%nat -> ["x"; "y"; "z"; "t"] !! i = Some text ->
        [(∅ : Metadata); ∅; ∅; ∅] !! i = Some m ->
        [literal 3 10; literal 1 10; literal 3 10; literal 1 2] !! i = Some d ->
        ({| page_content := text;
            metadata :=
              Some (<["score" := VFloat (SFsub 53 1024 (SFone 53 1024) d)]> m)
         |} ∈ docs <->
         SFltb (literal 1 2) (SFsub 53 1024 (SFone 53 1024) d) = true)) /\
    (forall doc, doc ∈ docs ->
        exists i text m d,
          (i < 4)%nat /\ ["x"; "y"; "z"; "t"] !! i = Some text /\
          [(∅ : Metadata); ∅; ∅; ∅] !! i = Some m /\
          [literal 3 10; literal 1 10; literal 3 10; literal 1 2] !! i =
            Some d /\
          doc = {| page_content := text;
                   metadata :=
                     Some (<["score" :=
                               VFloat (SFsub 53 1024 (SFone 53 1024) d)]> m) |} /\
          SFltb (literal 1 2) (SFsub 53 1024 (SFone 53 1024) d) = true /\
          metadata doc ≫= (fun md => md !! "score") =
            Some (VFloat (SFsub 53 1024 (SFone 53 1024) d))).
Proof.
  apply (search_by_vector_threshold (H := MemClient ties_knn)
           scenario_self scenario_query ties_kwargs empty_world
           ["x"; "y"; "z"; "t"] ["x"; "y"; "z"; "t"] [∅; ∅; ∅; ∅]
           [literal 3 10; literal 1 10; literal 3 10; literal 1 2]
           [] [] [] []);
    solve [reflexivity | simpl; lia].
Defined.

Lemma capped_knn_honours_n_results :
  honours_n_results (H := MemClient capped_knn).
Proof.
  intros name qv n wh b candidates rest Heq. simpl in Heq.
  injection Heq as <- _. rewrite length_take. lia.
Qed.

(** With [top_k = 3] the engine hands out ["x"], ["y"] and ["z"]; all three
    pass the threshold; ["y"] has the best score and ["x"] stays before
    ["z"], which has the same score. *)
Example capped_search :
  (search_by_vector (H := MemClient capped_knn) scenario_self scenario_query
     capped_kwargs empty_world).1 =
  Ok [{| page_content := "y";
         metadata := Some {["score" := VFloat (literal 9 10)]} |};
      {| page_content := "x";
         metadata := Some {["score" := VFloat (literal 7 10)]} |};
      {| page_content := "z";
         metadata := Some {["score" := VFloat (literal 7 10)]} |}].
Proof. vm_compute. reflexivity. Qed.

Lemma search_by_vector_top_k_sorted_stable_witness :
  exists docs,
    (search_by_vector (H := MemClient capped_knn) scenario_self scenario_query
       capped_kwargs empty_world).1 = Ok docs /\
    (length docs <= 3)%nat /\
    StronglySorted
      (fun doc1 doc2 =>
         exists m1 m2 s1 s2,
           metadata doc1 = Some m1 /\ m1 !! "score" = Some (VFloat s1) /\
           metadata doc2 = Some m2 /\ m2 !! "score" = Some (VFloat s2) /\
           SFleb s2 s1 = true) docs /\
    forall s,
      List.filter
        (fun doc =>
           match metadata doc with
           | Some m =>
               match m !! "score" with
               | Some (VFloat k) => SFeqb k s
               | _ => false
               end
           | None => false
           end) docs =
      List.filter
        (fun doc =>
           match metadata doc with
           | Some m =>
               match m !! "score" with
               | Some (VFloat k) => SFeqb k s
               | _ => false
               end
           | None => false
           end)
        (omap (fun i =>
                 match ["x"; "y"; "z"] !! i, [(∅ : Metadata); ∅; ∅] !! i, [literal 3 10; literal 1 10; literal 3 10] !! i with
                 | Some text, Some m, Some d =>
                     if SFltb (literal 1 2)
                              (SFsub 53 1024 (SFone 53 1024) d)
                     then Some {| page_content := text;
                                  metadata :=
                                    Some (<["score" :=
                                              VFloat (SFsub 53 1024
                                                        (SFone 53 1024) d)]>
                                            m) |}
                     else None
                 | _, _, _ => None
                 end) (seq 0 3)).
Proof.
  apply (search_by_vector_top_k_sorted_stable (H := MemClient capped_knn)
           scenario_self scenario_query capped_kwargs empty_world
           ["x"; "y"; "z"] ["x"; "y"; "z"] [∅; ∅; ∅]
           [literal 3 10; literal 1 10; literal 3 10]
           [] [] [] [] capped_knn_honours_n_results);
    solve [reflexivity | simpl; lia].
Defined.

Lemma search_by_vector_absent_fields_witness :
  (search_by_vector (H := MemClient no_documents_knn) scenario_self
     scenario_query scenario_kwargs empty_world).1 = Ok [].
Proof.
  apply (search_by_vector_absent_fields (H := MemClient no_documents_knn)).
  right. left. left. reflexivity.
Defined.

(** ** Collection provisioning *)

Section Provisioning.

Context {B : Type} `{ChromaClient B}.
Variables (self : ChromaVector) (collection_name : string).

Lemma create_collection_cached (w : World B) :
  truthy_bytes (fst <$> cache w !! cache_key (_collection_name self)) = true ->
  create_collection self collection_name w =
  (Ok tt, after w (backend w)
            [EvLockAcquire (lock_name collection_name) 20;
             EvCacheGet (cache_key (_collection_name self));
             EvLockRelease (lock_name collection_name)]).
Proof.
  intros Ht. unfold create_collection, after. run_M.
  fold (cache_key (_collection_name self)). rewrite Ht. simpl.
  by rewrite <- !app_assoc.
Qed.

Lemma create_collection_uncached (w : World B) :
  truthy_bytes (fst <$> cache w !! cache_key (_collection_name self)) = false ->
  create_collection self collection_name w =
  (Ok tt, provisioned self collection_name w).
Proof.
  intros Ht. unfold create_collection, provisioned. run_M.
  fold (cache_key (_collection_name self)). rewrite Ht. simpl.
  by rewrite <- !app_assoc.
Qed.

Lemma create_collection_ok (w : World B) :
  exists w',
    create_collection self collection_name w = (Ok tt, w') /\
    next_uuid w' = next_uuid w.
Proof.
  destruct (truthy_bytes (fst <$> cache w !! cache_key (_collection_name self)))
    eqn:Ht.
  - eexists. split; [by apply create_collection_cached|done].
  - eexists. split; [by apply create_collection_uncached|done].
Qed.

(** What [create_collection] writes keeps Redis free of empty values. *)
Lemma create_collection_sentinels (w : World B) :
  sentinels_only (cache w) ->
  sentinels_only (cache (create_collection self collection_name w).2).
Proof.
  intros Hs.
  destruct (truthy_bytes (fst <$> cache w !! cache_key (_collection_name self)))
    eqn:Ht.
  - by rewrite create_collection_cached.
  - rewrite create_collection_uncached by done. simpl.
    intros key v ex Hl. apply lookup_insert_Some in Hl as [[_ Heq]|[_ Hl]].
    + by injection Heq as <- _.
    + by eapply Hs.
Qed.

(** C4.  [create_collection] takes the lock named for the collection and,
    while it holds it, first reads the existence-cache entry.  If the entry
    is present it releases the lock and returns: the engine is neither
    called nor changed.  Otherwise it calls get-or-create-collection once,
    then sets the entry to [1] with an expiry of 3600 seconds, then releases
    the lock.  Redis is taken free of empty values, which is what this code
    writes there. *)
Theorem create_collection_check_then_act (w : World B) :
  sentinels_only (cache w) ->
  (is_Some (cache w !! cache_key (_collection_name self)) ->
   create_collection self collection_name w =
   (Ok tt, after w (backend w)
             [EvLockAcquire (lock_name collection_name) 20;
              EvCacheGet (cache_key (_collection_name self));
              EvLockRelease (lock_name collection_name)])) /\
  (cache w !! cache_key (_collection_name self) = None ->
   create_collection self collection_name w =
   (Ok tt,
    {| cache :=
         <[cache_key (_collection_name self) := ("1", 3600%Z)]> (cache w);
       backend := client_get_or_create_collection collection_name (backend w);
       next_uuid := next_uuid w;
       trace := trace w ++
                [EvLockAcquire (lock_name collection_name) 20;
                 EvCacheGet (cache_key (_collection_name self));
                 EvGetOrCreateCollection collection_name;
                 EvCacheSet (cache_key (_collection_name self)) "1" 3600;
                 EvLockRelease (lock_name collection_name)] |})).
Proof.
  intros Hs. split.
  - intros [[v ex] Hl]. apply create_collection_cached.
    rewrite Hl. simpl. apply negb_true_iff, String.eqb_neq. by eapply Hs.
  - intros Hl. rewrite create_collection_uncached; [done|]. by rewrite Hl.
Qed.

End Provisioning.

Lemma sentinels_only_empty : sentinels_only ∅.
Proof. intros key v ex Hl. by rewrite lookup_empty in Hl. Qed.

Lemma sentinels_only_cached : sentinels_only (cache cached_world).
Proof.
  intros key v ex Hl. simpl in Hl.
  apply lookup_singleton_Some in Hl as [_ Heq].
  by injection Heq as <- _.
Qed.

Lemma create_collection_check_then_act_witness :
  create_collection (H := MemClient scenario_knn) scenario_self
    (_collection_name scenario_self) cached_world =
  (Ok tt, after cached_world (backend cached_world)
            [EvLockAcquire (lock_name (_collection_name scenario_self)) 20;
             EvCacheGet (cache_key (_collection_name scenario_self));
             EvLockRelease (lock_name (_collection_name scenario_self))]) /\
  create_collection (H := MemClient scenario_knn) scenario_self
    (_collection_name scenario_self) empty_world =
  (Ok tt, provisioned (H := MemClient scenario_knn) scenario_self
            (_collection_name scenario_self) empty_world).
Proof.
  split.
  - apply (create_collection_check_then_act (H := MemClient scenario_knn)
             scenario_self (_collection_name scenario_self) cached_world
             sentinels_only_cached).
    exists ("1", 3600%Z). reflexivity.
  - apply (create_collection_check_then_act (H := MemClient scenario_knn)
             scenario_self (_collection_name scenario_self) empty_world
             sentinels_only_empty).
    reflexivity.
Defined.

(** ** Existence probe, creation and deletion *)

Section Storage.

Context {B : Type} `{ChromaClient B}.
Variables (doc_id_key : string) (uuid4 : nat -> string).
Variable self : ChromaVector.

Lemma text_exists_run (id : string) (w : World B) :
  text_exists self id w =
  (Ok true,
   after w (client_get_or_create_collection (_collection_name self) (backend w))
     [EvGetOrCreateCollection (_collection_name self);
      EvGet (_collection_name self) [id]]).
Proof. unfold text_exists, after. run_M. by rewrite <- app_assoc. Qed.

(** C10.  [text_exists] answers [True] for every id, added or not: it
    compares with zero the number of keys of the mapping the engine returns,
    and that mapping always has its fixed keys. *)
Theorem text_exists_always_true (id : string) (w : World B) :
  (text_exists self id w).1 = Ok true.
Proof. by rewrite text_exists_run. Qed.

Lemma _get_uuids_run (texts : list Document) (w : World B) :
  exists uuids n,
    _get_uuids doc_id_key uuid4 texts w = (Ok uuids, with_next_uuid w n) /\
    length uuids = length texts.
Proof.
  revert w. induction texts as [|text rest IH]; intros w.
  - exists [], (next_uuid w). by destruct w.
  - cbn [_get_uuids]. unfold mbind, M_bind.
    assert (exists uuid n, assign_id doc_id_key uuid4 text w =
                           (Ok uuid, with_next_uuid w n)) as (uuid & n & ->).
    { unfold assign_id, fresh_uuid.
      destruct (metadata text ≫= _) as [[s| | |]|];
        try (by eexists _, (S (next_uuid w)));
        exists s, (next_uuid w); by destruct w. }
    destruct (IH (with_next_uuid w n)) as (uuids & n' & -> & Hlen).
    exists (uuid :: uuids), n'. simpl. by rewrite Hlen.
Qed.

Lemma add_texts_run (documents : list Document) embeddings (w : World B) :
  exists uuids n,
    length uuids = length documents /\
    add_texts doc_id_key uuid4 self documents embeddings w =
    (Ok tt,
     {| cache := cache w;
        backend :=
          collection_upsert (_collection_name self) uuids
            (page_content <$> documents) embeddings (metadata <$> documents)
            (client_get_or_create_collection (_collection_name self)
               (backend w));
        next_uuid := n;
        trace := trace w ++
                 [EvGetOrCreateCollection (_collection_name self);
                  EvUpsert (_collection_name self) uuids
                    (page_content <$> documents) embeddings
                    (metadata <$> documents)] |}).
Proof.
  destruct (_get_uuids_run documents w) as (uuids & n & Hrun & Hlen).
  exists uuids, n. split; [done|].
  unfold add_texts. unfold mbind at 1. unfold M_bind at 1. rewrite Hrun.
  run_M. by rewrite <- app_assoc.
Qed.

(** C5.  [create] on non-empty sequences of equal length runs to completion
    and upserts one id per Document; [text_exists] then answers [True] for
    each of these ids. *)
Theorem create_then_text_exists (texts : list Document)
  (embeddings : list (list float)) (w : World B) :
  texts <> [] ->
  length texts = length embeddings ->
  exists w1 uuids,
    create doc_id_key uuid4 self texts embeddings w = (Ok tt, w1) /\
    last (trace w1) =
      Some (EvUpsert (_collection_name self) uuids (page_content <$> texts)
              embeddings (metadata <$> texts)) /\
    length uuids = length texts /\
    forall id, id ∈ uuids -> (text_exists self id w1).1 = Ok true.
Proof.
  intros Hne _. destruct texts as [|text rest]; [done|].
  destruct (create_collection_ok self (_collection_name self) w)
    as (w' & Hcc & _).
  destruct (add_texts_run (text :: rest) embeddings w')
    as (uuids & n & Hlen & Hadd).
  eexists _, uuids. split; [|split; [|split]].
  - unfold create. unfold mbind, M_bind. rewrite Hcc. exact Hadd.
  - simpl. by rewrite last_app_cons.
  - exact Hlen.
  - intros id _. by rewrite text_exists_run.
Qed.


(** C8.  [search_by_full_text] returns the empty sequence for every query
    and keyword arguments, raises nothing and calls nothing. *)
Theorem search_by_full_text_empty {K : Type} (query_ : string) (kwargs : K)
  (w : World B) :
  search_by_full_text self query_ kwargs w = (Ok [], w).
Proof. reflexivity. Qed.

Lemma delete_by_ids_nil (w : World B) : delete_by_ids self [] w = (Ok tt, w).
Proof. reflexivity. Qed.

End Storage.

Lemma create_then_text_exists_witness :
  exists w1 uuids,
    create (H := MemClient scenario_knn) "doc_id" scenario_uuid4 scenario_self
      scenario_texts scenario_embeddings empty_world = (Ok tt, w1) /\
    last (trace w1) =
      Some (EvUpsert (_collection_name scenario_self) uuids
              (page_content <$> scenario_texts) scenario_embeddings
              (metadata <$> scenario_texts)) /\
    length uuids = length scenario_texts /\
    forall id, id ∈ uuids ->
      (text_exists (H := MemClient scenario_knn) scenario_self id w1).1 = Ok true.
Proof.
  apply (create_then_text_exists (H := MemClient scenario_knn) "doc_id"
           scenario_uuid4 scenario_self scenario_texts scenario_embeddings
           empty_world); [discriminate|reflexivity].
Defined.


(** The ids [create] assigns in the scenario: the one the first Document
    carries and a generated one; both are stored by the reference engine. *)
Example scenario_create :
  let w1 := (create (H := MemClient scenario_knn) "doc_id" scenario_uuid4
               scenario_self scenario_texts scenario_embeddings empty_world).2 in
  last (trace w1) =
    Some (EvUpsert (_collection_name scenario_self) ["id-a"; "uuid-0"]
            ["a"; "b"] scenario_embeddings
            [Some {["doc_id" := VStr "id-a"]}; None]) /\
  dom (entries_of (_collection_name scenario_self) (backend w1)) =
    {["id-a"; "uuid-0"]}.
Proof. split; vm_compute; reflexivity. Qed.

(** ** Deletion by ids on the reference engine *)

Section Deletion.

Variable knn :
  gmap string Entry -> list float -> Z -> option Where -> QueryResult.
Variable self : ChromaVector.

Lemma entries_of_get_or_create (name other : string) (cs : Collections) :
  entries_of other (mem_get_or_create name cs) = entries_of other cs.
Proof.
  unfold entries_of, mem_get_or_create.
  destruct (cs !! name) eqn:Hn; [done|].
  destruct (decide (name = other)) as [<-|Hne].
  - by rewrite lookup_insert_eq, Hn.
  - by rewrite lookup_insert_ne.
Qed.

(** C7.  [delete_by_ids] with no id changes nothing and calls nothing, on
    every engine; with ids none of which is in the collection it raises
    nothing and leaves the entries of every collection as they were. *)
Theorem delete_by_ids_empty_or_absent :
  (forall (B : Type) (H : ChromaClient B) (w : World B),
      delete_by_ids self [] w = (Ok tt, w)) /\
  (forall (ids : list string) (w : World Collections),
      (forall id, id ∈ ids ->
                  entries_of (_collection_name self) (backend w) !! id = None) ->
      exists w',
        delete_by_ids (H := MemClient knn) self ids w = (Ok tt, w') /\
        forall name, entries_of name (backend w') = entries_of name (backend w)).
Proof.
  split; [done|]. intros [|id ids] w Habs.
  - by exists w.
  - eexists. split; [unfold delete_by_ids; run_M; reflexivity|].
    intros name. simpl. unfold mem_delete.
    rewrite foldr_delete_id.
    2: { apply Forall_forall. intros i Hi.
         rewrite entries_of_get_or_create. by apply Habs. }
    destruct (decide (_collection_name self = name)) as [<-|Hne].
    + unfold entries_of at 1. rewrite lookup_insert_eq. simpl.
      apply entries_of_get_or_create.
    + unfold entries_of at 1. rewrite lookup_insert_ne by done.
      apply entries_of_get_or_create.
Qed.

End Deletion.

Lemma delete_by_ids_empty_or_absent_witness :
  exists w',
    delete_by_ids (H := MemClient scenario_knn) scenario_self ["id-z"]
      indexed_world = (Ok tt, w') /\
    forall name,
      entries_of name (backend w') = entries_of name (backend indexed_world).
Proof.
  apply (proj2 (delete_by_ids_empty_or_absent scenario_knn scenario_self)).
  intros id Hin. apply list_elem_of_singleton in Hin as ->.
  vm_compute. reflexivity.
Defined.

(** ** Collection-name resolution *)

Lemma ascii_lower_char_idemp (c : ascii) :
  ascii_lower_char (ascii_lower_char c) = ascii_lower_char c.
Proof. destruct c as [[] [] [] [] [] [] [] []]; reflexivity. Qed.

Lemma ascii_lower_char_ascii (c : ascii) :
  (nat_of_ascii c <? 128)%nat = true ->
  (nat_of_ascii (ascii_lower_char c) <? 128)%nat = true.
Proof. destruct c as [[] [] [] [] [] [] [] []]; intros Hc; by vm_compute. Qed.

Lemma ascii_lower_idemp (s : string) : ascii_lower (ascii_lower s) = ascii_lower s.
Proof.
  induction s as [|c s IH]; simpl; [done|].
  by rewrite ascii_lower_char_idemp, IH.
Qed.

Lemma ascii_lower_ascii (s : string) :
  is_ascii s = true -> is_ascii (ascii_lower s) = true.
Proof.
  unfold is_ascii. induction s as [|c s IH]; simpl; [done|].
  intros Hs. apply andb_true_iff in Hs as [Hc Hs].
  by rewrite (ascii_lower_char_ascii c Hc), (IH Hs).
Qed.

Lemma ascii_lower_length (s : string) :
  String.length (ascii_lower s) = String.length s.
Proof. induction s as [|c s IH]; simpl; [done|]. by rewrite IH. Qed.

Lemma ascii_lower_get (s : string) (i : nat) (c : ascii) :
  String.get i s = Some c ->
  String.get i (ascii_lower s) = Some (ascii_lower_char c).
Proof.
  revert i. induction s as [|x s IH]; intros i; simpl; [done|].
  destruct i as [|i]; [by intros [= ->]|]. apply IH.
Qed.

(** On ASCII strings [str.lower] is idempotent. *)
Lemma str_lower_twice (str_lower : string -> string) (s : string) :
  lower_on_ascii str_lower -> is_ascii s = true ->
  str_lower (str_lower s) = str_lower s.
Proof.
  intros Hlow Hs. rewrite (Hlow s Hs).
  rewrite (Hlow _ (ascii_lower_ascii s Hs)). apply ascii_lower_idemp.
Qed.

Section NameResolution.

Variable VectorType_CHROMA : string.
Variable gen_collection_name_by_id : string -> string.
Variable str_lower : string -> string.
Variable dify_config : DifyConfig.
Variables DEFAULT_TENANT DEFAULT_DATABASE : string.

(** C9.  For a dataset without index structure whose generated name is
    made of ASCII characters, [init_vector] names the collection after the
    dataset id, lower-cased (every letter [A-Z] of the generated name
    replaced by its small letter, every other character kept), and stores
    the name in the index structure of the dataset; [init_vector] on the
    dataset so updated reads the same name back and leaves the dataset as it
    is.  [str.lower] is taken to act on ASCII strings as Python defines
    it. *)
Theorem init_vector_round_trip (dataset : Dataset.t) :
  lower_on_ascii str_lower ->
  is_ascii (gen_collection_name_by_id (Dataset.id dataset)) = true ->
  Dataset.index_struct dataset = None ->
  exists vector1 dataset1 vector2,
    init_vector VectorType_CHROMA gen_collection_name_by_id str_lower
      dify_config DEFAULT_TENANT DEFAULT_DATABASE dataset =
      (Ok vector1, dataset1) /\
    String.length (_collection_name vector1) =
      String.length (gen_collection_name_by_id (Dataset.id dataset)) /\
    (forall i c,
        String.get i (gen_collection_name_by_id (Dataset.id dataset)) =
          Some c ->
        String.get i (_collection_name vector1) =
          Some (if (65 <=? nat_of_ascii c)%nat && (nat_of_ascii c <=? 90)%nat
                then ascii_of_nat (nat_of_ascii c + 32) else c)) /\
    Dataset.id dataset1 = Dataset.id dataset /\
    Dataset.index_struct dataset1 =
      Some (JObject
              [("type", JString VectorType_CHROMA);
               ("vector_store",
                JObject [("class_prefix",
                          JString (_collection_name vector1))])]) /\
    init_vector VectorType_CHROMA gen_collection_name_by_id str_lower
      dify_config DEFAULT_TENANT DEFAULT_DATABASE dataset1 =
      (Ok vector2, dataset1) /\
    _collection_name vector2 = _collection_name vector1.
Proof.
  intros Hlow Hascii Hnone.
  unfold init_vector, resolve_collection_name, Dataset.index_struct_dict.
  rewrite Hnone. cbn.
  eexists _, _, _. split; [reflexivity|]. cbn.
  rewrite (Hlow _ Hascii).
  split_and!; try done.
  - apply ascii_lower_length.
  - intros i c Hget. by apply ascii_lower_get.
  - repeat case_decide; try done. cbn.
    repeat case_decide; try done. cbn.
    by rewrite (Hlow _ (ascii_lower_ascii _ Hascii)), ascii_lower_idemp.
Qed.

End NameResolution.

Lemma ascii_lower_on_ascii : lower_on_ascii ascii_lower.
Proof. by intros s _. Qed.

Lemma init_vector_round_trip_witness :
  exists vector1 dataset1 vector2,
    init_vector "chroma" scenario_gen ascii_lower scenario_settings
      "default_tenant" "default_database" fresh_dataset =
      (Ok vector1, dataset1) /\
    String.length (_collection_name vector1) =
      String.length "Vector_index_0B5C-11EF_Node" /\
    (forall i c,
        String.get i "Vector_index_0B5C-11EF_Node" = Some c ->
        String.get i (_collection_name vector1) =
          Some (if (65 <=? nat_of_ascii c)%nat && (nat_of_ascii c <=? 90)%nat
                then ascii_of_nat (nat_of_ascii c + 32) else c)) /\
    Dataset.id dataset1 = Dataset.id fresh_dataset /\
    Dataset.index_struct dataset1 =
      Some (JObject
              [("type", JString "chroma");
               ("vector_store",
                JObject [("class_prefix",
                          JString (_collection_name vector1))])]) /\
    init_vector "chroma" scenario_gen ascii_lower scenario_settings
      "default_tenant" "default_database" dataset1 = (Ok vector2, dataset1) /\
    _collection_name vector2 = _collection_name vector1.
Proof.
  apply (init_vector_round_trip "chroma" scenario_gen ascii_lower
           scenario_settings "default_tenant" "default_database" fresh_dataset
           ascii_lower_on_ascii); reflexivity.
Defined.

(** The name resolved for the dataset of the scenario. *)
Example scenario_init_vector :
  _collection_name <$>
    (match (init_vector "chroma" scenario_gen ascii_lower scenario_settings
              "default_tenant" "default_database" fresh_dataset).1 with
     | Ok v => Some v
     | Raise _ => None
     end) = Some "vector_index_0b5c-11ef_node".
Proof. reflexivity. Qed.

(** * Further properties of the adapter *)

(** ** Misaligned responses *)


Lemma collect_aligned documents metadatas distances thr idxs acc :
  Forall (fun i => misaligned_at documents metadatas distances thr i = false)
    idxs ->
  collect documents metadatas distances thr idxs acc =
  Ok (acc ++ omap (candidate_at documents metadatas distances thr) idxs)%list.
Proof.
  intros Hall. revert acc.
  induction Hall as [|i idxs Hi _ IH]; intros acc; simpl.
  - by rewrite app_nil_r.
  - unfold subscript, misaligned_at, candidate_at in *.
    destruct (distances !! i) as [d|] eqn:Hd; [|done].
    destruct (metadatas !! i) as [m|] eqn:Hm; [|done]. simpl.
    destruct (PyFloat.gtb (PyFloat.sub one d) thr) eqn:Hg.
    + destruct (documents !! i) as [text|] eqn:Ht.
      * simpl. rewrite IH. by rewrite <- app_assoc.
      * by cbn in Hi.
    + destruct (documents !! i); apply IH.
Qed.


Lemma assemble_aligned results thr ids ri documents rd metadatas rm
  distances rs :
  qr_ids results = Some (ids :: ri) ->
  qr_documents results = Some (documents :: rd) ->
  qr_metadatas results = Some (metadatas :: rm) ->
  qr_distances results = Some (distances :: rs) ->
  (forall i, (i < length ids)%nat ->
             misaligned_at documents metadatas distances thr i = false) ->
  exists docs,
    assemble results thr = Ok docs /\
    docs ≡ₚ retained documents metadatas distances thr (length ids).
Proof.
  intros Hi Hd Hm Hs Hal.
  destruct (sorted_reverse_spec score_key
              (retained documents metadatas distances thr (length ids)))
    as (docs & Hsort & Hperm & _).
  { apply retained_keys. }
  exists docs. split; [|done].
  unfold assemble. rewrite Hi, Hd, Hm, Hs. simpl.
  rewrite collect_aligned; [exact Hsort|].
  apply Forall_forall. intros i Hin. apply elem_of_seq in Hin.
  apply Hal. lia.
Qed.

Section SearchShapes.

Context {B : Type} `{ChromaClient B}.
Variables (self : ChromaVector) (query_vector : list float)
  (kwargs : SearchKwargs) (w : World B).
Variables (ids : list string) (documents : list string)
  (metadatas : list Metadata) (distances : list float).
Variables (ri : list (list string)) (rd : list (list string))
  (rm : list (list Metadata)) (rs : list (list float)).



(** X3.  With a NaN threshold nothing passes: when distances and metadata
    cover the ids, [search_by_vector] returns the empty sequence, whatever
    the distances and whether or not the texts are there. *)
Theorem search_by_vector_nan_threshold :
  qr_ids (response_of self query_vector kwargs (backend w)) = Some (ids :: ri) ->
  qr_documents (response_of self query_vector kwargs (backend w)) =
    Some (documents :: rd) ->
  qr_metadatas (response_of self query_vector kwargs (backend w)) =
    Some (metadatas :: rm) ->
  qr_distances (response_of self query_vector kwargs (backend w)) =
    Some (distances :: rs) ->
  (length ids <= length metadatas)%nat ->
  (length ids <= length distances)%nat ->
  kw_score_threshold kwargs = Some S754_nan ->
  (search_by_vector self query_vector kwargs w).1 = Ok [].
Proof.
  intros Hi Hd Hm Hs Lm Ls Hnan.
  assert (Hthr : threshold_of kwargs = S754_nan).
  { unfold threshold_of. by rewrite Hnan. }
  assert (Hg : forall x, PyFloat.gtb x (threshold_of kwargs) = false).
  { intros x. rewrite Hthr. by destruct x. }
  destruct (assemble_aligned _ (threshold_of kwargs) _ _ _ _ _ _ _ _
              Hi Hd Hm Hs) as (docs & Hrun & Hperm).
  { intros i Hlt. unfold misaligned_at.
    destruct (lookup_lt_is_Some_2 distances i) as [d ->]; [lia|].
    destruct (lookup_lt_is_Some_2 metadatas i) as [m ->]; [lia|].
    by rewrite Hg. }
  assert (Hret : retained documents metadatas distances (threshold_of kwargs)
                   (length ids) = []).
  { unfold retained. induction (seq 0 (length ids)) as [|i l IH]; [done|].
    csimpl. unfold candidate_at at 1.
    destruct (documents !! i), (metadatas !! i), (distances !! i); try done.
    by rewrite Hg. }
  rewrite search_by_vector_run. simpl. rewrite Hrun. f_equal.
  apply Permutation_nil_r. by rewrite Hperm, Hret.
Qed.

(** X4.  When no position is misaligned, every Document [search_by_vector]
    returns carries the text of a candidate and its metadata as the backend
    gave them, but for the key ["score"], which holds [1 - d] in place of
    whatever the backend had there; the distance [d] and the score are
    numbers: a candidate whose distance is NaN is never returned. *)
Theorem search_by_vector_returned_documents :
  qr_ids (response_of self query_vector kwargs (backend w)) = Some (ids :: ri) ->
  qr_documents (response_of self query_vector kwargs (backend w)) =
    Some (documents :: rd) ->
  qr_metadatas (response_of self query_vector kwargs (backend w)) =
    Some (metadatas :: rm) ->
  qr_distances (response_of self query_vector kwargs (backend w)) =
    Some (distances :: rs) ->
  (forall i, (i < length ids)%nat ->
             misaligned_at documents metadatas distances
               (threshold_of kwargs) i = false) ->
  exists docs,
    (search_by_vector self query_vector kwargs w).1 = Ok docs /\
    forall doc, doc ∈ docs ->
      exists i text m d md,
        (i < length ids)%nat /\ documents !! i = Some text /\
        metadatas !! i = Some m /\ distances !! i = Some d /\
        page_content doc = text /\ metadata doc = Some md /\
        md !! "score" = Some (VFloat (PyFloat.sub one d)) /\
        (forall key, key <> "score" -> md !! key = m !! key) /\
        PyFloat.is_nan d = false /\
        PyFloat.is_nan (PyFloat.sub one d) = false.
Proof.
  intros Hi Hd Hm Hs Hal.
  destruct (assemble_aligned _ (threshold_of kwargs) _ _ _ _ _ _ _ _
              Hi Hd Hm Hs Hal) as (docs & Hrun & Hperm).
  exists docs. rewrite search_by_vector_run. simpl. split; [done|].
  intros doc Hdoc. rewrite Hperm in Hdoc.
  apply elem_of_retained in Hdoc
    as (i & text & m & d & Hlt & Ht & Hmd & Hdist & Hg & ->).
  exists i, text, m, d, (<["score" := VFloat (PyFloat.sub one d)]> m).
  assert (Hnum : PyFloat.is_nan (PyFloat.sub one d) = false)
    by (by apply (ltb_not_nan_r (threshold_of kwargs))).
  split_and!; try done.
  - by rewrite lookup_insert_eq.
  - intros key Hne. by rewrite lookup_insert_ne.
  - clear -Hnum. destruct d; try done.
Qed.

End SearchShapes.



Lemma search_by_vector_nan_threshold_witness :
  (search_by_vector (H := MemClient scenario_knn) scenario_self scenario_query
     nan_kwargs empty_world).1 = Ok [].
Proof.
  apply (search_by_vector_nan_threshold (H := MemClient scenario_knn)
           scenario_self scenario_query nan_kwargs empty_world
           ["a"; "b"] ["a"; "b"] [∅; ∅] [literal 1 10; literal 14 10]
           [] [] [] []);
    solve [reflexivity | simpl; lia].
Defined.

Lemma search_by_vector_returned_documents_witness :
  exists docs,
    (search_by_vector (H := MemClient short_documents_knn) scenario_self
       scenario_query scenario_kwargs empty_world).1 = Ok docs /\
    forall doc, doc ∈ docs ->
      exists i text m d md,
        (i < 2)%nat /\ ["a"] !! i = Some text /\
        [({["document_id" := VStr "doc-42"; "score" := VInt 7]} : Metadata); ∅]
          !! i = Some m /\
        [literal 1 10; literal 14 10] !! i = Some d /\
        page_content doc = text /\ metadata doc = Some md /\
        md !! "score" = Some (VFloat (PyFloat.sub one d)) /\
        (forall key, key <> "score" -> md !! key = m !! key) /\
        PyFloat.is_nan d = false /\
        PyFloat.is_nan (PyFloat.sub one d) = false.
Proof.
  apply (search_by_vector_returned_documents
           (H := MemClient short_documents_knn)
           scenario_self scenario_query scenario_kwargs empty_world
           ["a"; "b"] ["a"]
           [{["document_id" := VStr "doc-42"; "score" := VInt 7]}; ∅]
           [literal 1 10; literal 14 10] [] [] [] []);
    try reflexivity.
  intros [|[|i]] Hlt; [vm_compute; reflexivity..|simpl in Hlt; lia].
Defined.

(** The stale score [7] of the backend is replaced, the document id kept. *)
Example short_documents_search :
  (search_by_vector (H := MemClient short_documents_knn) scenario_self
     scenario_query scenario_kwargs empty_world).1 =
  Ok [{| page_content := "a";
         metadata := Some {["document_id" := VStr "doc-42";
                            "score" := VFloat (literal 9 10)]} |}].
Proof. vm_compute. reflexivity. Qed.

(** ** Keyword arguments *)

Section Keywords.

Context {B : Type} `{ChromaClient B}.
Variables (self : ChromaVector) (query_vector : list float) (w : World B).

(** X5.  Leaving a keyword argument out is the same as passing its neutral
    value: [top_k] is 4, [score_threshold] is [0.0] (and so is [-0.0]), and
    an empty [document_ids_filter] is no filter at all, not a filter that
    matches nothing. *)
Theorem search_by_vector_defaults :
  (forall t f,
      search_by_vector self query_vector
        {| kw_top_k := None; kw_score_threshold := t;
           kw_document_ids_filter := f |} w =
      search_by_vector self query_vector
        {| kw_top_k := Some 4%Z; kw_score_threshold := t;
           kw_document_ids_filter := f |} w) /\
  (forall k f s,
      search_by_vector self query_vector
        {| kw_top_k := k; kw_score_threshold := Some (S754_zero s);
           kw_document_ids_filter := f |} w =
      search_by_vector self query_vector
        {| kw_top_k := k; kw_score_threshold := None;
           kw_document_ids_filter := f |} w) /\
  (forall k t,
      search_by_vector self query_vector
        {| kw_top_k := k; kw_score_threshold := t;
           kw_document_ids_filter := Some [] |} w =
      search_by_vector self query_vector
        {| kw_top_k := k; kw_score_threshold := t;
           kw_document_ids_filter := None |} w).
Proof.
  split_and!.
  - done.
  - intros k f s. rewrite !search_by_vector_run.
    by destruct s.
  - done.
Qed.

End Keywords.

(** ** What the data operations do to the outside *)

Section Operations.

Context {B : Type} `{ChromaClient B}.
Variables (doc_id_key : string) (uuid4 : nat -> string).
Variable self : ChromaVector.

Lemma delete_by_metadata_field_run (key value : string) (w : World B) :
  delete_by_metadata_field self key value w =
  (Ok tt,
   after w
     (collection_delete (_collection_name self) None
        (Some (WhereEq key value))
        (client_get_or_create_collection (_collection_name self) (backend w)))
     [EvGetOrCreateCollection (_collection_name self);
      EvDelete (_collection_name self) None (Some (WhereEq key value))]).
Proof.
  unfold delete_by_metadata_field, after. run_M. by rewrite <- app_assoc.
Qed.

Lemma delete_by_ids_run (id : string) (ids : list string) (w : World B) :
  delete_by_ids self (id :: ids) w =
  (Ok tt,
   after w
     (collection_delete (_collection_name self) (Some (id :: ids)) None
        (client_get_or_create_collection (_collection_name self) (backend w)))
     [EvGetOrCreateCollection (_collection_name self);
      EvDelete (_collection_name self) (Some (id :: ids)) None]).
Proof. unfold delete_by_ids, after. run_M. by rewrite <- app_assoc. Qed.

Lemma delete_run (w : World B) :
  delete self w =
  (Ok tt,
   after w (client_delete_collection (_collection_name self) (backend w))
     [EvDeleteCollection (_collection_name self)]).
Proof. unfold delete, after. by run_M. Qed.

(** X6.  Only provisioning talks to Redis: [add_texts],
    [delete_by_metadata_field], [delete], [delete_by_ids], [text_exists],
    [search_by_vector] and [search_by_full_text] neither read nor write a
    Redis key nor take a lock, whatever their arguments and whether or not
    they raise. *)
Theorem data_operations_leave_redis (w : World B) :
  (forall documents embeddings,
      leaves_redis (add_texts doc_id_key uuid4 self documents embeddings) w) /\
  (forall key value, leaves_redis (delete_by_metadata_field self key value) w) /\
  leaves_redis (delete self) w /\
  (forall ids, leaves_redis (delete_by_ids self ids) w) /\
  (forall id, leaves_redis (text_exists self id) w) /\
  (forall query_vector kwargs,
      leaves_redis (search_by_vector self query_vector kwargs) w) /\
  (forall query_ (kwargs : SearchKwargs),
      leaves_redis (search_by_full_text self query_ kwargs) w).
Proof.
  split_and!; unfold leaves_redis.
  - intros documents embeddings.
    destruct (add_texts_run doc_id_key uuid4 self documents embeddings w)
      as (uuids & n & _ & ->). simpl. split; [done|]. by eexists.
  - intros key value. rewrite delete_by_metadata_field_run. simpl.
    split; [done|]. by eexists.
  - rewrite delete_run. simpl. split; [done|]. by eexists.
  - intros [|id ids].
    + simpl. split; [done|]. exists []. by rewrite app_nil_r.
    + rewrite delete_by_ids_run. simpl. split; [done|]. by eexists.
  - intros id. rewrite text_exists_run. simpl. split; [done|]. by eexists.
  - intros query_vector kwargs. rewrite search_by_vector_run. simpl.
    split; [done|]. by eexists.
  - intros query_ kwargs. simpl. split; [done|]. exists [].
    by rewrite app_nil_r.
Qed.

(** X7.  [add_texts], [delete_by_metadata_field], [delete_by_ids] on a
    non-empty list, [text_exists] and [search_by_vector] all begin by a
    get-or-create of the adapter's collection: probing or deleting from a
    collection that does not exist creates it.  [add_texts] does so even
    with no Document. *)
Theorem data_operations_ensure_collection (w : World B) :
  (forall documents embeddings,
      ensures_collection (_collection_name self)
        (add_texts doc_id_key uuid4 self documents embeddings) w) /\
  (forall key value,
      ensures_collection (_collection_name self)
        (delete_by_metadata_field self key value) w) /\
  (forall id ids,
      ensures_collection (_collection_name self)
        (delete_by_ids self (id :: ids)) w) /\
  (forall id,
      ensures_collection (_collection_name self) (text_exists self id) w) /\
  (forall query_vector kwargs,
      ensures_collection (_collection_name self)
        (search_by_vector self query_vector kwargs) w).
Proof.
  split_and!; unfold ensures_collection.
  - intros documents embeddings.
    destruct (add_texts_run doc_id_key uuid4 self documents embeddings w)
      as (uuids & n & _ & ->). by eexists.
  - intros key value. rewrite delete_by_metadata_field_run. by eexists.
  - intros id ids. rewrite delete_by_ids_run. by eexists.
  - intros id. rewrite text_exists_run. by eexists.
  - intros query_vector kwargs. rewrite search_by_vector_run. by eexists.
Qed.

(** X8.  [add_texts] has no guard on empty input, unlike [create]: with no
    Document it still creates the collection and sends an upsert of empty
    arrays (with the embeddings it was given). *)
Theorem add_texts_empty (embeddings : list (list float)) (w : World B) :
  add_texts doc_id_key uuid4 self [] embeddings w =
  (Ok tt,
   after w
     (collection_upsert (_collection_name self) [] [] embeddings []
        (client_get_or_create_collection (_collection_name self) (backend w)))
     [EvGetOrCreateCollection (_collection_name self);
      EvUpsert (_collection_name self) [] [] embeddings []]).
Proof. unfold add_texts, after. run_M. by rewrite <- app_assoc. Qed.

End Operations.

(** ** Provisioning, composed *)

Lemma cache_key_inj (a b : string) : cache_key a = cache_key b -> a = b.
Proof. unfold cache_key. cbn. intros Heq. by simplify_eq. Qed.

Section ProvisioningComposed.

Context {B : Type} `{ChromaClient B}.
Variables (doc_id_key : string) (uuid4 : nat -> string).
Variable self : ChromaVector.

Lemma create_collection_leaves_cached (name : string) (w : World B) :
  truthy_bytes
    (fst <$> cache (create_collection self name w).2
               !! cache_key (_collection_name self)) = true.
Proof.
  destruct (truthy_bytes (fst <$> cache w !! cache_key (_collection_name self)))
    eqn:Ht.
  - by rewrite create_collection_cached.
  - rewrite create_collection_uncached by done. simpl.
    by rewrite lookup_insert_eq.
Qed.

(** X9.  Provisioning is idempotent at the engine: once [create_collection]
    has run on an adapter, a further [create_collection] on it, for whatever
    collection name, only takes the lock, reads the cache entry and releases
    the lock; it neither calls nor changes the engine, and it leaves Redis
    as it is. *)
Theorem create_collection_twice (name name' : string) (w : World B) :
  create_collection self name' (create_collection self name w).2 =
  (Ok tt,
   after (create_collection self name w).2
     (backend (create_collection self name w).2)
     [EvLockAcquire (lock_name name') 20;
      EvCacheGet (cache_key (_collection_name self));
      EvLockRelease (lock_name name')]).
Proof. apply create_collection_cached, create_collection_leaves_cached. Qed.

(** X10.  [delete] drops the collection at the engine and leaves the
    existence-cache entry in place: a [create_collection] that follows
    finds the entry and does not call the engine, although the collection
    is gone. *)
Theorem create_collection_after_delete (name name' : string) (w : World B) :
  cache (delete self (create_collection self name w).2).2 =
    cache (create_collection self name w).2 /\
  backend (delete self (create_collection self name w).2).2 =
    client_delete_collection (_collection_name self)
      (backend (create_collection self name w).2) /\
  create_collection self name' (delete self (create_collection self name w).2).2 =
  (Ok tt,
   after (delete self (create_collection self name w).2).2
     (backend (delete self (create_collection self name w).2).2)
     [EvLockAcquire (lock_name name') 20;
      EvCacheGet (cache_key (_collection_name self));
      EvLockRelease (lock_name name')]).
Proof.
  rewrite delete_run. simpl. split_and!; [done..|].
  apply create_collection_cached. simpl.
  apply create_collection_leaves_cached.
Qed.

(** X11.  On a cache hit [create] skips the provisioning call only: it takes
    and releases the lock, then [add_texts] issues its own
    get-or-create-collection and the upsert of one id per Document.  Redis
    is left as it is. *)
Theorem create_on_cache_hit (texts : list Document)
  (embeddings : list (list float)) (w : World B) :
  texts <> [] ->
  truthy_bytes (fst <$> cache w !! cache_key (_collection_name self)) = true ->
  exists uuids n,
    length uuids = length texts /\
    create doc_id_key uuid4 self texts embeddings w =
    (Ok tt,
     {| cache := cache w;
        backend :=
          collection_upsert (_collection_name self) uuids
            (page_content <$> texts) embeddings (metadata <$> texts)
            (client_get_or_create_collection (_collection_name self)
               (backend w));
        next_uuid := n;
        trace := trace w ++
                 [EvLockAcquire (lock_name (_collection_name self)) 20;
                  EvCacheGet (cache_key (_collection_name self));
                  EvLockRelease (lock_name (_collection_name self));
                  EvGetOrCreateCollection (_collection_name self);
                  EvUpsert (_collection_name self) uuids
                    (page_content <$> texts) embeddings
                    (metadata <$> texts)] |}).
Proof.
  intros Hne Ht. destruct texts as [|text rest]; [done|].
  pose proof (create_collection_cached self (_collection_name self) w Ht) as Hcc.
  destruct (add_texts_run doc_id_key uuid4 self (text :: rest) embeddings
              (after w (backend w)
                 [EvLockAcquire (lock_name (_collection_name self)) 20;
                  EvCacheGet (cache_key (_collection_name self));
                  EvLockRelease (lock_name (_collection_name self))]))
    as (uuids & n & Hlen & Hadd).
  exists uuids, n. split; [done|].
  unfold create. unfold mbind, M_bind. rewrite Hcc, Hadd. simpl.
  by rewrite <- app_assoc.
Qed.

(** X24.  On a cache miss [create] calls get-or-create-collection twice:
    once under the lock, followed by the write of the cache entry (value
    [1], expiry 3600 seconds), and once more in [add_texts], right before
    the upsert of one id per Document. *)
Theorem create_on_cache_miss (texts : list Document)
  (embeddings : list (list float)) (w : World B) :
  texts <> [] ->
  truthy_bytes (fst <$> cache w !! cache_key (_collection_name self)) = false ->
  exists uuids n,
    length uuids = length texts /\
    create doc_id_key uuid4 self texts embeddings w =
    (Ok tt,
     {| cache :=
          <[cache_key (_collection_name self) := ("1", 3600%Z)]> (cache w);
        backend :=
          collection_upsert (_collection_name self) uuids
            (page_content <$> texts) embeddings (metadata <$> texts)
            (client_get_or_create_collection (_collection_name self)
               (client_get_or_create_collection (_collection_name self)
                  (backend w)));
        next_uuid := n;
        trace := trace w ++
                 [EvLockAcquire (lock_name (_collection_name self)) 20;
                  EvCacheGet (cache_key (_collection_name self));
                  EvGetOrCreateCollection (_collection_name self);
                  EvCacheSet (cache_key (_collection_name self)) "1" 3600;
                  EvLockRelease (lock_name (_collection_name self));
                  EvGetOrCreateCollection (_collection_name self);
                  EvUpsert (_collection_name self) uuids
                    (page_content <$> texts) embeddings
                    (metadata <$> texts)] |}).
Proof.
  intros Hne Ht. destruct texts as [|text rest]; [done|].
  pose proof (create_collection_uncached self (_collection_name self) w Ht)
    as Hcc.
  destruct (add_texts_run doc_id_key uuid4 self (text :: rest) embeddings
              (provisioned self (_collection_name self) w))
    as (uuids & n & Hlen & Hadd).
  exists uuids, n. split; [done|].
  unfold create. unfold mbind, M_bind. rewrite Hcc, Hadd. simpl.
  by rewrite <- app_assoc.
Qed.

(** X12.  The lock and the engine call of [create_collection] are for the
    name it is given, the cache entry is for the adapter's own collection.
    Called on an uncached adapter with another name, it creates that other
    collection at the engine and marks the adapter's own collection as
    existing; the cache entry of the other collection is not touched. *)
Theorem create_collection_other_name (name : string) (w : World B) :
  name <> _collection_name self ->
  truthy_bytes (fst <$> cache w !! cache_key (_collection_name self)) = false ->
  backend (create_collection self name w).2 =
    client_get_or_create_collection name (backend w) /\
  cache (create_collection self name w).2 !! cache_key (_collection_name self) =
    Some ("1", 3600%Z) /\
  cache (create_collection self name w).2 !! cache_key name =
    cache w !! cache_key name.
Proof.
  intros Hne Ht. rewrite create_collection_uncached by done. simpl.
  split_and!; [done|by rewrite lookup_insert_eq|].
  rewrite lookup_insert_ne; [done|].
  intros Heq. apply cache_key_inj in Heq. done.
Qed.

End ProvisioningComposed.

Lemma create_on_cache_hit_witness :
  exists uuids n,
    length uuids = length scenario_texts /\
    create (H := MemClient scenario_knn) "doc_id" scenario_uuid4 scenario_self
      scenario_texts scenario_embeddings cached_world =
    (Ok tt,
     {| cache := cache cached_world;
        backend :=
          mem_upsert (_collection_name scenario_self) uuids
            (page_content <$> scenario_texts) scenario_embeddings
            (metadata <$> scenario_texts)
            (mem_get_or_create (_collection_name scenario_self)
               (backend cached_world));
        next_uuid := n;
        trace := [EvLockAcquire (lock_name (_collection_name scenario_self)) 20;
                  EvCacheGet (cache_key (_collection_name scenario_self));
                  EvLockRelease (lock_name (_collection_name scenario_self));
                  EvGetOrCreateCollection (_collection_name scenario_self);
                  EvUpsert (_collection_name scenario_self) uuids
                    (page_content <$> scenario_texts) scenario_embeddings
                    (metadata <$> scenario_texts)] |}).
Proof.
  apply (create_on_cache_hit (H := MemClient scenario_knn) "doc_id"
           scenario_uuid4 scenario_self scenario_texts scenario_embeddings
           cached_world); [discriminate|reflexivity].
Defined.

Lemma create_on_cache_miss_witness :
  exists uuids n,
    length uuids = length scenario_texts /\
    create (H := MemClient scenario_knn) "doc_id" scenario_uuid4 scenario_self
      scenario_texts scenario_embeddings empty_world =
    (Ok tt,
     {| cache :=
          <[cache_key (_collection_name scenario_self) := ("1", 3600%Z)]>
            (cache empty_world);
        backend :=
          mem_upsert (_collection_name scenario_self) uuids
            (page_content <$> scenario_texts) scenario_embeddings
            (metadata <$> scenario_texts)
            (mem_get_or_create (_collection_name scenario_self)
               (mem_get_or_create (_collection_name scenario_self)
                  (backend empty_world)));
        next_uuid := n;
        trace := [EvLockAcquire (lock_name (_collection_name scenario_self)) 20;
                  EvCacheGet (cache_key (_collection_name scenario_self));
                  EvGetOrCreateCollection (_collection_name scenario_self);
                  EvCacheSet (cache_key (_collection_name scenario_self))
                    "1" 3600;
                  EvLockRelease (lock_name (_collection_name scenario_self));
                  EvGetOrCreateCollection (_collection_name scenario_self);
                  EvUpsert (_collection_name scenario_self) uuids
                    (page_content <$> scenario_texts) scenario_embeddings
                    (metadata <$> scenario_texts)] |}).
Proof.
  apply (create_on_cache_miss (H := MemClient scenario_knn) "doc_id"
           scenario_uuid4 scenario_self scenario_texts scenario_embeddings
           empty_world); [discriminate|reflexivity].
Defined.

Lemma create_collection_other_name_witness :
  backend (create_collection (H := MemClient scenario_knn) scenario_self
             "vector_index_b_node" empty_world).2 =
    mem_get_or_create "vector_index_b_node" (backend empty_world) /\
  cache (create_collection (H := MemClient scenario_knn) scenario_self
           "vector_index_b_node" empty_world).2
    !! cache_key (_collection_name scenario_self) = Some ("1", 3600%Z) /\
  cache (create_collection (H := MemClient scenario_knn) scenario_self
           "vector_index_b_node" empty_world).2
    !! cache_key "vector_index_b_node" =
    cache empty_world !! cache_key "vector_index_b_node".
Proof.
  apply (create_collection_other_name (H := MemClient scenario_knn)
           scenario_self "vector_index_b_node" empty_world);
    [discriminate|reflexivity].
Defined.

(** ** Name resolution on any dataset *)

Lemma getitem_missing (fields : list (string * json)) (key : string) :
  (forall kv, kv ∈ fields -> kv.1 <> key) ->
  getitem (JObject fields) key = Raise KeyError.
Proof.
  intros Hno. unfold getitem.
  destruct (list_find _ fields) as [[i [k v]]|] eqn:Hf; [|done].
  apply list_find_Some in Hf as (Hl & Hk & _). simpl in Hk.
  exfalso. apply (Hno (k, v)); [|done].
  by eapply list_elem_of_lookup_2.
Qed.

Lemma ascii_lower_char_small (c : ascii) :
  (65 <=? nat_of_ascii (ascii_lower_char c))%nat &&
  (nat_of_ascii (ascii_lower_char c) <=? 90)%nat = false.
Proof. destruct c as [[] [] [] [] [] [] [] []]; reflexivity. Qed.

Lemma ascii_lower_no_capital (s : string) (i : nat) (c : ascii) :
  String.get i (ascii_lower s) = Some c ->
  (65 <=? nat_of_ascii c)%nat && (nat_of_ascii c <=? 90)%nat = false.
Proof.
  revert i. induction s as [|x s IH]; intros i; simpl; [done|].
  destruct i as [|i]; [|apply IH].
  intros [= <-]. apply ascii_lower_char_small.
Qed.

Section AnyDataset.

Variable VectorType_CHROMA : string.
Variable gen_collection_name_by_id : string -> string.
Variable str_lower : string -> string.
Variable dify_config : DifyConfig.
Variables DEFAULT_TENANT DEFAULT_DATABASE : string.

(** X13.  Whenever [init_vector] succeeds on a dataset whose generated name
    and stored [class_prefix], if any, are made of ASCII characters, the
    collection name it resolves has no capital letter [A-Z], it keeps the
    dataset id, and running it again on the dataset it left returns the same
    adapter and changes nothing more: this holds with or without a prior
    index structure.  [str.lower] is taken to act on ASCII strings as
    Python defines it. *)
Theorem init_vector_idempotent (dataset dataset' : Dataset.t)
  (vector : ChromaVector) :
  lower_on_ascii str_lower ->
  is_ascii (gen_collection_name_by_id (Dataset.id dataset)) = true ->
  (forall vector_store prefix,
      getitem (Dataset.index_struct_dict dataset) "vector_store" =
        Ok vector_store ->
      getitem vector_store "class_prefix" = Ok (JString prefix) ->
      is_ascii prefix = true) ->
  init_vector VectorType_CHROMA gen_collection_name_by_id str_lower
    dify_config DEFAULT_TENANT DEFAULT_DATABASE dataset =
    (Ok vector, dataset') ->
  (forall i c,
      String.get i (_collection_name vector) = Some c ->
      (65 <=? nat_of_ascii c)%nat && (nat_of_ascii c <=? 90)%nat = false) /\
  Dataset.id dataset' = Dataset.id dataset /\
  init_vector VectorType_CHROMA gen_collection_name_by_id str_lower
    dify_config DEFAULT_TENANT DEFAULT_DATABASE dataset' =
    (Ok vector, dataset').
Proof.
  intros Hlow Hgen Hstored.
  unfold init_vector, resolve_collection_name.
  destruct (truthy_json (Dataset.index_struct_dict dataset)) eqn:Ht.
  - destruct (getitem (Dataset.index_struct_dict dataset) "vector_store")
      as [vs|] eqn:Hvs; [|done]. simpl.
    destruct (getitem vs "class_prefix") as [cp|] eqn:Hcp; [|done]. simpl.
    destruct cp as [|s|]; try done. simpl.
    intros [= <- <-]. simpl. rewrite Ht, Hvs. simpl. rewrite Hcp. simpl.
    split_and!; [|done|done].
    intros i c. rewrite (Hlow s (Hstored vs s eq_refl Hcp)).
    apply ascii_lower_no_capital.
  - simpl. intros [= <- <-]. cbn.
    split_and!; [|done|].
    + intros i c. rewrite (Hlow _ Hgen). apply ascii_lower_no_capital.
    + repeat case_decide; try done. simpl.
      repeat case_decide; try done. simpl.
      by rewrite (str_lower_twice str_lower _ Hlow Hgen).
Qed.


(** X15.  A non-empty index structure without the key ["vector_store"], or
    whose ["vector_store"] mapping has no ["class_prefix"], makes
    [init_vector] raise [KeyError]; no name is derived from the dataset id
    in its place and the dataset is not written. *)
Theorem init_vector_missing_key (dataset : Dataset.t)
  (field : string * json) (fields : list (string * json)) :
  Dataset.index_struct dataset = Some (JObject (field :: fields)) ->
  (forall kv, kv ∈ field :: fields -> kv.1 <> "vector_store") \/
  (exists inner,
      getitem (JObject (field :: fields)) "vector_store" = Ok (JObject inner) /\
      forall kv, kv ∈ inner -> kv.1 <> "class_prefix") ->
  init_vector VectorType_CHROMA gen_collection_name_by_id str_lower
    dify_config DEFAULT_TENANT DEFAULT_DATABASE dataset = (Raise KeyError, dataset).
Proof.
  intros Hs Hmiss.
  unfold init_vector, resolve_collection_name, Dataset.index_struct_dict.
  rewrite Hs. cbn [truthy_json].
  destruct Hmiss as [Hno|(inner & Hvs & Hno)].
  - by rewrite (getitem_missing _ _ Hno).
  - rewrite Hvs. cbn [mbind result_bind].
    by rewrite (getitem_missing _ _ Hno).
Qed.

(** X16.  The parameters the HTTP client of an adapter made by
    [init_vector] is built from never ask for TLS and, provided the defaults
    of chromadb are not empty, never name an empty tenant or database: an
    unset or empty setting falls back to the default. *)
Theorem init_vector_client_params (dataset dataset' : Dataset.t)
  (vector : ChromaVector) :
  DEFAULT_TENANT <> "" -> DEFAULT_DATABASE <> "" ->
  init_vector VectorType_CHROMA gen_collection_name_by_id str_lower
    dify_config DEFAULT_TENANT DEFAULT_DATABASE dataset = (Ok vector, dataset') ->
  params_ssl (to_chroma_params (_client_config vector)) = false /\
  params_tenant (to_chroma_params (_client_config vector)) <> "" /\
  params_database (to_chroma_params (_client_config vector)) <> "" /\
  (CHROMA_TENANT dify_config = None \/ CHROMA_TENANT dify_config = Some "" ->
   params_tenant (to_chroma_params (_client_config vector)) = DEFAULT_TENANT) /\
  (CHROMA_DATABASE dify_config = None \/
   CHROMA_DATABASE dify_config = Some "" ->
   params_database (to_chroma_params (_client_config vector)) =
     DEFAULT_DATABASE).
Proof.
  intros Ht Hd Hrun.
  assert (Hcfg : _client_config vector =
                 config_of_settings dify_config DEFAULT_TENANT DEFAULT_DATABASE).
  { unfold init_vector in Hrun.
    destruct (resolve_collection_name _ _ _ _) as [[name|e] ds]; [|done].
    simpl in Hrun. by injection Hrun as <- _. }
  rewrite Hcfg. unfold to_chroma_params, config_of_settings, or_else. simpl.
  split_and!; [done| | | |].
  - destruct (CHROMA_TENANT dify_config) as [s|]; [|done].
    destruct (String.eqb s "") eqn:E; [done|]. by apply String.eqb_neq.
  - destruct (CHROMA_DATABASE dify_config) as [s|]; [|done].
    destruct (String.eqb s "") eqn:E; [done|]. by apply String.eqb_neq.
  - by intros [-> | ->].
  - by intros [-> | ->].
Qed.

End AnyDataset.

Lemma init_vector_idempotent_witness :
  (forall i c,
      String.get i "vector_index_abc_node" = Some c ->
      (65 <=? nat_of_ascii c)%nat && (nat_of_ascii c <=? 90)%nat = false) /\
  Dataset.id indexed_dataset = Dataset.id indexed_dataset /\
  init_vector "chroma" scenario_gen ascii_lower scenario_settings
    "default_tenant" "default_database" indexed_dataset =
  (Ok {| _collection_name := "vector_index_abc_node";
         _client_config := config_of_settings scenario_settings
                             "default_tenant" "default_database" |},
   indexed_dataset).
Proof.
  apply (init_vector_idempotent "chroma" scenario_gen ascii_lower
           scenario_settings "default_tenant" "default_database"
           indexed_dataset indexed_dataset
           {| _collection_name := "vector_index_abc_node";
              _client_config := config_of_settings scenario_settings
                                  "default_tenant" "default_database" |}
           ascii_lower_on_ascii); [reflexivity| |reflexivity].
  intros vector_store prefix Hvs Hcp.
  vm_compute in Hvs. injection Hvs as <-.
  vm_compute in Hcp. injection Hcp as <-. reflexivity.
Defined.


(** The stored name of the scenario, read back in lower case. *)
Example indexed_init_vector :
  _collection_name <$>
    (match (init_vector "chroma" scenario_gen ascii_lower scenario_settings
              "default_tenant" "default_database" indexed_dataset).1 with
     | Ok v => Some v
     | Raise _ => None
     end) = Some "vector_index_abc_node".
Proof. reflexivity. Qed.

Lemma init_vector_missing_key_witness :
  init_vector "chroma" scenario_gen ascii_lower scenario_settings
    "default_tenant" "default_database" foreign_dataset = (Raise KeyError, foreign_dataset).
Proof.
  apply (init_vector_missing_key "chroma" scenario_gen ascii_lower
           scenario_settings "default_tenant" "default_database"
           foreign_dataset
           ("type", JString "keyword") []); [reflexivity|].
  left. intros kv Hin. apply list_elem_of_singleton in Hin as ->. discriminate.
Defined.

Lemma init_vector_client_params_witness :
  params_ssl (to_chroma_params (config_of_settings scenario_settings
                "default_tenant" "default_database")) = false /\
  params_tenant (to_chroma_params (config_of_settings scenario_settings
                   "default_tenant" "default_database")) <> "" /\
  params_database (to_chroma_params (config_of_settings scenario_settings
                     "default_tenant" "default_database")) <> "" /\
  (CHROMA_TENANT scenario_settings = None \/
   CHROMA_TENANT scenario_settings = Some "" ->
   params_tenant (to_chroma_params (config_of_settings scenario_settings
                    "default_tenant" "default_database")) = "default_tenant") /\
  (CHROMA_DATABASE scenario_settings = None \/
   CHROMA_DATABASE scenario_settings = Some "" ->
   params_database (to_chroma_params (config_of_settings scenario_settings
                      "default_tenant" "default_database")) =
     "default_database").
Proof.
  apply (init_vector_client_params "chroma" scenario_gen ascii_lower
           scenario_settings "default_tenant" "default_database"
           indexed_dataset indexed_dataset
           {| _collection_name := "vector_index_abc_node";
              _client_config := config_of_settings scenario_settings
                                  "default_tenant" "default_database" |});
    [discriminate|discriminate|reflexivity].
Defined.

(** * Properties of the configuration entities *)

Lemma first_with_value_Some {E : Type} (value_of_member : E -> string)
  (members : list E) (v : string) (mode : E) :
  first_with_value value_of_member members v = Some mode ->
  mode ∈ members /\ value_of_member mode = v.
Proof.
  induction members as [|m rest IH]; simpl; [done|].
  destruct (String.eqb (value_of_member m) v) eqn:Heq.
  - intros [= <-]. split; [left|]. by apply String.eqb_eq.
  - intros Hf. destruct (IH Hf). split; [by right|done].
Qed.

(** X17.  [PromptType.value_of] is the inverse of [.value]: it returns the
    member whose value is the string given, compared exactly (case
    included), and raises [ValueError] with the message
    ["invalid prompt type value <value>"] for every other string. *)
Theorem PromptType_value_of_inverse :
  (forall mode, PromptType.value_of (PromptType.value mode) = inr mode) /\
  (forall v mode,
      PromptType.value_of v = inr mode -> PromptType.value mode = v) /\
  (forall v,
      v <> "simple" -> v <> "advanced" ->
      PromptType.value_of v =
      inl (mkValueError ("invalid prompt type value " +:+ v))).
Proof.
  split_and!.
  - by intros [].
  - intros v mode. unfold PromptType.value_of.
    destruct (first_with_value _ _ v) as [m|] eqn:Hf; [|done].
    intros [= <-]. by apply first_with_value_Some in Hf as [_ ?].
  - intros v H1 H2. unfold PromptType.value_of, PromptType.members.
    cbn [first_with_value PromptType.value].
    apply String.eqb_neq in H1, H2. rewrite String.eqb_sym in H1, H2.
    by rewrite H1, H2.
Qed.

(** X18.  [RetrieveStrategy.value_of] is the inverse of [.value] in the same
    way, with the message ["invalid retrieve strategy value <value>"]. *)
Theorem RetrieveStrategy_value_of_inverse :
  (forall mode,
      RetrieveStrategy.value_of (RetrieveStrategy.value mode) = inr mode) /\
  (forall v mode,
      RetrieveStrategy.value_of v = inr mode ->
      RetrieveStrategy.value mode = v) /\
  (forall v,
      v <> "single" -> v <> "multiple" ->
      RetrieveStrategy.value_of v =
      inl (mkValueError ("invalid retrieve strategy value " +:+ v))).
Proof.
  split_and!.
  - by intros [].
  - intros v mode. unfold RetrieveStrategy.value_of.
    destruct (first_with_value _ _ v) as [m|] eqn:Hf; [|done].
    intros [= <-]. by apply first_with_value_Some in Hf as [_ ?].
  - intros v H1 H2.
    unfold RetrieveStrategy.value_of, RetrieveStrategy.members.
    cbn [first_with_value RetrieveStrategy.value].
    apply String.eqb_neq in H1, H2. rewrite String.eqb_sym in H1, H2.
    by rewrite H1, H2.
Qed.

Lemma PromptType_value_of_inverse_witness :
  PromptType.value PromptType.ADVANCED = "advanced" /\
  PromptType.value_of "Simple" =
    inl (mkValueError ("invalid prompt type value " +:+ "Simple")).
Proof.
  split.
  - apply (proj1 (proj2 PromptType_value_of_inverse)). reflexivity.
  - apply (proj2 (proj2 PromptType_value_of_inverse)); discriminate.
Defined.

Lemma RetrieveStrategy_value_of_inverse_witness :
  RetrieveStrategy.value RetrieveStrategy.MULTIPLE = "multiple" /\
  RetrieveStrategy.value_of "" =
    inl (mkValueError ("invalid retrieve strategy value " +:+ "")).
Proof.
  split.
  - apply (proj1 (proj2 RetrieveStrategy_value_of_inverse)). reflexivity.
  - apply (proj2 (proj2 RetrieveStrategy_value_of_inverse)); discriminate.
Defined.

(** * Properties of the message cycle manager *)

(** ** Splitting *)

Lemma split_not_nil (sep : ascii) (s : string) : split sep s <> [].
Proof.
  destruct s as [|c s]; simpl; [done|].
  destruct (Ascii.eqb c sep); [done|]. by destruct (split sep s).
Qed.

Lemma split_no_sep (sep : ascii) (s : string) :
  contains sep s = false -> split sep s = [s].
Proof.
  induction s as [|c s IH]; simpl; [done|].
  intros Hc. apply orb_false_iff in Hc as [Hc Hs].
  by rewrite Hc, (IH Hs).
Qed.

Lemma split_app (sep : ascii) (a b : string) :
  split sep (a +:+ String sep b) = (split sep a ++ split sep b)%list.
Proof.
  induction a as [|c a IH]; simpl.
  - by rewrite Ascii.eqb_refl.
  - rewrite IH. destruct (Ascii.eqb c sep); [done|].
    pose proof (split_not_nil sep a). by destruct (split sep a).
Qed.

Lemma split_pieces_no_sep (sep : ascii) (s piece : string) :
  piece ∈ split sep s -> contains sep piece = false.
Proof.
  revert piece. induction s as [|c s IH]; simpl; intros piece Hin.
  - by apply list_elem_of_singleton in Hin as ->.
  - destruct (Ascii.eqb c sep) eqn:Hc.
    + apply elem_of_cons in Hin as [->|Hin]; [done|by apply IH].
    + pose proof (split_not_nil sep s).
      destruct (split sep s) as [|p ps]; [done|].
      apply elem_of_cons in Hin as [->|Hin].
      * simpl. rewrite Hc. apply IH. by left.
      * apply IH. by right.
Qed.

Lemma split_pieces_chars (sep c' : ascii) (s piece : string) :
  piece ∈ split sep s -> contains c' piece = true -> contains c' s = true.
Proof.
  revert piece. induction s as [|c s IH]; simpl; intros piece Hin Hc'.
  - by apply list_elem_of_singleton in Hin as ->.
  - destruct (Ascii.eqb c sep) eqn:Hc.
    + apply elem_of_cons in Hin as [->|Hin]; [done|].
      rewrite (IH piece Hin Hc'). apply orb_true_r.
    + pose proof (split_not_nil sep s).
      destruct (split sep s) as [|p ps]; [done|].
      apply elem_of_cons in Hin as [->|Hin].
      * simpl in Hc'. apply orb_true_iff in Hc' as [->|Hp]; [done|].
        rewrite (IH p); [apply orb_true_r|by left|done].
      * rewrite (IH piece); [apply orb_true_r|by right|done].
Qed.

Lemma split_pieces_length (sep : ascii) (s piece : string) :
  piece ∈ split sep s -> (String.length piece <= String.length s)%nat.
Proof.
  revert piece. induction s as [|c s IH]; simpl; intros piece Hin.
  - by apply list_elem_of_singleton in Hin as ->.
  - destruct (Ascii.eqb c sep) eqn:Hc.
    + apply elem_of_cons in Hin as [->|Hin]; [simpl; lia|].
      specialize (IH _ Hin). lia.
    + pose proof (split_not_nil sep s).
      destruct (split sep s) as [|p ps]; [done|].
      apply elem_of_cons in Hin as [->|Hin].
      * simpl. specialize (IH p ltac:(by left)). lia.
      * specialize (IH piece ltac:(by right)). lia.
Qed.

Lemma first_piece_elem_of (sep : ascii) (s : string) :
  first_piece (split sep s) ∈ split sep s.
Proof.
  pose proof (split_not_nil sep s).
  destruct (split sep s); [done|]. by left.
Qed.

Lemma last_piece_elem_of (sep : ascii) (s : string) :
  last_piece (split sep s) ∈ split sep s.
Proof.
  pose proof (split_not_nil sep s) as Hne. unfold last_piece.
  destruct (exists_last Hne) as (l & x & ->).
  rewrite last_last. apply elem_of_app. right. by left.
Qed.

Lemma last_piece_app (sep : ascii) (a b : string) :
  last_piece (split sep (a +:+ String sep b)) = last_piece (split sep b).
Proof.
  rewrite split_app. unfold last_piece.
  pose proof (split_not_nil sep b) as Hne.
  destruct (exists_last Hne) as (l & x & ->).
  by rewrite app_assoc, !last_last.
Qed.

Lemma string_app_assoc (a b c : string) :
  (a +:+ b) +:+ c = a +:+ (b +:+ c).
Proof.
  induction a as [|x a IH]; [done|].
  change (String x ((a +:+ b) +:+ c) = String x (a +:+ (b +:+ c))).
  by f_equal.
Qed.

Lemma contains_app (c : ascii) (a b : string) :
  contains c (a +:+ b) = contains c a || contains c b.
Proof.
  induction a as [|x a IH]; simpl; [done|]. by rewrite IH, orb_assoc.
Qed.

(** ** [message_file_to_stream_response] *)

Lemma tool_file_id_of_clean (url : string) :
  contains "/" (tool_file_id_of url) = false /\
  contains "." (tool_file_id_of url) = false.
Proof.
  unfold tool_file_id_of. split.
  - destruct (contains "/" (first_piece (split "." (last_piece (split "/" url)))))
      eqn:Hc; [|done].
    apply (split_pieces_chars "." "/" _ _ (first_piece_elem_of _ _)) in Hc.
    by rewrite (split_pieces_no_sep "/" url _ (last_piece_elem_of _ _)) in Hc.
  - apply (split_pieces_no_sep "." (last_piece (split "/" url))).
    apply first_piece_elem_of.
Qed.

Lemma py_len_characters (s : string) :
  py_len s =
  length (List.filter (fun c => (nat_of_ascii c <? 128)%nat ||
                                (192 <=? nat_of_ascii c)%nat)
            (list_ascii_of_string s)).
Proof.
  induction s as [|c s IH]; [done|].
  cbn [py_len list_ascii_of_string List.filter]. unfold continues_character.
  rewrite IH.
  destruct (128 <=? nat_of_ascii c)%nat eqn:H1,
           (nat_of_ascii c <? 192)%nat eqn:H2,
           (nat_of_ascii c <? 128)%nat eqn:H3,
           (192 <=? nat_of_ascii c)%nat eqn:H4; simpl; try done;
    repeat match goal with
      | H : (_ <=? _)%nat = true |- _ => apply Nat.leb_le in H
      | H : (_ <=? _)%nat = false |- _ => apply Nat.leb_gt in H
      | H : (_ <? _)%nat = true |- _ => apply Nat.ltb_lt in H
      | H : (_ <? _)%nat = false |- _ => apply Nat.ltb_ge in H
      end; lia.
Qed.

Lemma py_len_dot (s : string) : py_len ("." +:+ s) = S (py_len s).
Proof. done. Qed.

Lemma extension_of_shape (url : string) :
  exists suffix,
    extension_of url = "." +:+ suffix /\
    contains "." suffix = false /\
    (py_len (extension_of url) <= 10)%nat /\
    (contains "." url = false -> extension_of url = ".bin") /\
    (contains "." url = true ->
     (py_len (last_piece (split "." url)) <= 9)%nat ->
     suffix = last_piece (split "." url)) /\
    (contains "." url = true ->
     (9 < py_len (last_piece (split "." url)))%nat ->
     suffix = "bin").
Proof.
  unfold extension_of. destruct (contains "." url) eqn:Hdot.
  - rewrite py_len_dot.
    destruct (10 <? S (py_len (last_piece (split "." url))))%nat eqn:Hlen.
    + apply Nat.ltb_lt in Hlen.
      exists "bin". split_and!; try done; try (intros; lia). vm_compute; lia.
    + apply Nat.ltb_ge in Hlen.
      exists (last_piece (split "." url)).
      split_and!; try done; try (intros; lia).
      apply (split_pieces_no_sep "." url), last_piece_elem_of.
  - exists "bin". split_and!; try done. vm_compute; lia.
Qed.

Section FileResponses.

Variable task_id : string.
Variable sign_tool_file : string -> string -> string.
Variables (rows : list MessageFile.t) (message_file_id : string).

(** X19.  [message_file_to_stream_response] answers [None] exactly when no
    row has the id asked for or the first such row has no url.  Otherwise
    the response carries the task id of the manager, the id asked for, the
    type of the row, and a [belongs_to] that is never empty: ["user"] stands
    in for a missing or empty one. *)
Theorem message_file_response_fields :
  (message_file_to_stream_response task_id sign_tool_file rows message_file_id
     = None <->
   first_message_file rows message_file_id = None \/
   exists row, first_message_file rows message_file_id = Some row /\
               MessageFile.url row = None) /\
  (forall response,
      message_file_to_stream_response task_id sign_tool_file rows
        message_file_id = Some response ->
      exists row,
        first_message_file rows message_file_id = Some row /\
        response_task_id response = task_id /\
        response_id response = message_file_id /\
        response_type response = MessageFile.type row /\
        response_belongs_to response <> "" /\
        (MessageFile.belongs_to row = None \/
         MessageFile.belongs_to row = Some "" ->
         response_belongs_to response = "user") /\
        (forall owner, MessageFile.belongs_to row = Some owner ->
                       owner <> "" -> response_belongs_to response = owner)).
Proof.
  unfold message_file_to_stream_response. split.
  - destruct (first_message_file rows message_file_id) as [row|] eqn:Hf.
    + destruct (MessageFile.url row) as [u|] eqn:Hu.
      * split; [done|]. intros [?|(row' & [= <-] & Hn)]; [done|].
        by rewrite Hu in Hn.
      * split; [|done]. intros _. right. by exists row.
    + split; [by left|done].
  - intros response.
    destruct (first_message_file rows message_file_id) as [row|] eqn:Hf;
      [|done].
    destruct (MessageFile.url row) as [u|] eqn:Hu; [|done].
    intros [= <-]. exists row. simpl.
    apply find_some in Hf as [_ Hid]. apply String.eqb_eq in Hid.
    split_and!; try done.
    + unfold or_else. destruct (MessageFile.belongs_to row) as [o|]; [|done].
      destruct (String.eqb o "") eqn:Ho; [done|]. by apply String.eqb_neq.
    + by intros [-> | ->].
    + intros owner -> Hne. unfold or_else.
      apply String.eqb_neq in Hne. by rewrite Hne.
Qed.

(** X20.  A url that starts with ["http"] is handed on untouched and nothing
    is signed; any other url is replaced by the signature of a tool file id
    that contains neither ["/"] nor ["."] and of an extension made of a dot
    and a dot-free suffix, at most 10 characters long, which is [".bin"]
    when the url has no dot.  Characters are counted as [len] does, one for
    each byte of the encoding outside 128-191: the suffix is what follows
    the last dot of the url when that has at most 9 characters, and ["bin"]
    when it has more. *)
Theorem message_file_response_url (row : MessageFile.t) (url : string) :
  first_message_file rows message_file_id = Some row ->
  MessageFile.url row = Some url ->
  exists response,
    message_file_to_stream_response task_id sign_tool_file rows
      message_file_id = Some response /\
    (String.prefix "http" url = true -> response_url response = url) /\
    (String.prefix "http" url = false ->
     exists tool_file_id suffix,
       response_url response = sign_tool_file tool_file_id ("." +:+ suffix) /\
       contains "/" tool_file_id = false /\
       contains "." tool_file_id = false /\
       contains "." suffix = false /\
       (length (List.filter (fun c => (nat_of_ascii c <? 128)%nat ||
                                      (192 <=? nat_of_ascii c)%nat)
                  (list_ascii_of_string ("." +:+ suffix))) <= 10)%nat /\
       (contains "." url = false -> suffix = "bin") /\
       (contains "." url = true ->
        (length (List.filter (fun c => (nat_of_ascii c <? 128)%nat ||
                                       (192 <=? nat_of_ascii c)%nat)
                   (list_ascii_of_string (last_piece (split "." url)))) <= 9)%nat ->
        suffix = last_piece (split "." url)) /\
       (contains "." url = true ->
        (9 < length (List.filter (fun c => (nat_of_ascii c <? 128)%nat ||
                                           (192 <=? nat_of_ascii c)%nat)
                       (list_ascii_of_string (last_piece (split "." url)))))%nat ->
        suffix = "bin")).
Proof.
  intros Hf Hu. unfold message_file_to_stream_response. rewrite Hf, Hu.
  eexists. split; [done|]. cbn [response_url]. split.
  - by intros ->.
  - intros ->.
    destruct (extension_of_shape url)
      as (suffix & Hext & Hs & Hlen & Hbin & Hshort & Hlong).
    destruct (tool_file_id_of_clean url) as [Hslash Hdot].
    exists (tool_file_id_of url), suffix. rewrite Hext in *.
    rewrite <- !py_len_characters.
    split_and!; try done.
    intros Hno. specialize (Hbin Hno). by injection Hbin.
Qed.

End FileResponses.

(** X21.  Reading a url back: for a url made of a directory part (empty or
    ending in ["/"]), a name free of ["/"] and ["."], a dot and an extension
    of at most 9 characters free of ["/"] and ["."], the tool file id is the
    name and the extension is the dot and the extension, whatever dots the
    directory part has.  The characters of the extension are counted as
    [len] does, one for each byte of the encoding outside 128-191. *)
Theorem url_parts_read_back (dir name ext : string) :
  dir = "" \/ (exists d, dir = d +:+ "/") ->
  contains "/" name = false -> contains "." name = false ->
  contains "/" ext = false -> contains "." ext = false ->
  (length (List.filter (fun c => (nat_of_ascii c <? 128)%nat ||
                                 (192 <=? nat_of_ascii c)%nat)
             (list_ascii_of_string ext)) <= 9)%nat ->
  tool_file_id_of (dir +:+ name +:+ "." +:+ ext) = name /\
  extension_of (dir +:+ name +:+ "." +:+ ext) = "." +:+ ext.
Proof.
  intros Hdir Hn1 Hn2 He1 He2 Hlen. rewrite <- py_len_characters in Hlen.
  set (rest := name +:+ "." +:+ ext).
  assert (Hrest_eq : rest = name +:+ String "." ext) by done.
  assert (Hrest : contains "/" rest = false).
  { rewrite Hrest_eq, contains_app, Hn1. simpl. exact He1. }
  split.
  - unfold tool_file_id_of.
    assert (Hlast : last_piece (split "/" (dir +:+ rest)) = rest).
    { destruct Hdir as [->|(d & ->)].
      - change ("" +:+ rest) with rest. by rewrite (split_no_sep "/" _ Hrest).
      - rewrite string_app_assoc. change ("/" +:+ rest) with (String "/" rest).
        by rewrite last_piece_app, (split_no_sep "/" _ Hrest). }
    rewrite Hlast, Hrest_eq.
    by rewrite split_app, (split_no_sep "." _ Hn2).
  - unfold extension_of.
    assert (Hsplit : dir +:+ rest = (dir +:+ name) +:+ String "." ext).
    { by rewrite Hrest_eq, string_app_assoc. }
    rewrite Hsplit.
    assert (Hdot : contains "." ((dir +:+ name) +:+ String "." ext) = true).
    { rewrite contains_app. simpl. apply orb_true_r. }
    rewrite Hdot, last_piece_app, (split_no_sep "." _ He2).
    change (last_piece [ext]) with ext.
    rewrite py_len_dot.
    destruct (10 <? S (py_len ext))%nat eqn:Hl; [|done].
    apply Nat.ltb_lt in Hl. lia.
Qed.

(** A local tool file is served under a signed url; it belongs to the user
    when the row does not say. *)
Example local_file_response :
  message_file_to_stream_response "task-1" scenario_sign [local_file] "mf-1" =
  Some {| response_task_id := "task-1"; response_id := "mf-1";
          response_type := "image"; response_belongs_to := "user";
          response_url := "/signed/7f3a.png" |}.
Proof. reflexivity. Qed.

Lemma message_file_response_fields_witness :
  exists row,
    first_message_file [local_file] "mf-1" = Some row /\
    response_task_id
      {| response_task_id := "task-1"; response_id := "mf-1";
         response_type := "image"; response_belongs_to := "user";
         response_url := "/signed/7f3a.png" |} = "task-1" /\
    response_id
      {| response_task_id := "task-1"; response_id := "mf-1";
         response_type := "image"; response_belongs_to := "user";
         response_url := "/signed/7f3a.png" |} = "mf-1" /\
    response_type
      {| response_task_id := "task-1"; response_id := "mf-1";
         response_type := "image"; response_belongs_to := "user";
         response_url := "/signed/7f3a.png" |} = MessageFile.type row /\
    response_belongs_to
      {| response_task_id := "task-1"; response_id := "mf-1";
         response_type := "image"; response_belongs_to := "user";
         response_url := "/signed/7f3a.png" |} <> "" /\
    (MessageFile.belongs_to row = None \/ MessageFile.belongs_to row = Some "" ->
     response_belongs_to
       {| response_task_id := "task-1"; response_id := "mf-1";
          response_type := "image"; response_belongs_to := "user";
          response_url := "/signed/7f3a.png" |} = "user") /\
    (forall owner, MessageFile.belongs_to row = Some owner -> owner <> "" ->
     response_belongs_to
       {| response_task_id := "task-1"; response_id := "mf-1";
          response_type := "image"; response_belongs_to := "user";
          response_url := "/signed/7f3a.png" |} = owner).
Proof.
  apply (proj2 (message_file_response_fields "task-1" scenario_sign
                  [local_file] "mf-1")).
  reflexivity.
Defined.

Lemma message_file_response_url_witness :
  exists response,
    message_file_to_stream_response "task-1" scenario_sign [accented_file]
      "mf-2" = Some response /\
    (String.prefix "http" "/files/photo.ééééé" = true ->
     response_url response = "/files/photo.ééééé") /\
    (String.prefix "http" "/files/photo.ééééé" = false ->
     exists tool_file_id suffix,
       response_url response = scenario_sign tool_file_id ("." +:+ suffix) /\
       contains "/" tool_file_id = false /\
       contains "." tool_file_id = false /\
       contains "." suffix = false /\
       (length (List.filter (fun c => (nat_of_ascii c <? 128)%nat ||
                                      (192 <=? nat_of_ascii c)%nat)
                  (list_ascii_of_string ("." +:+ suffix))) <= 10)%nat /\
       (contains "." "/files/photo.ééééé" = false -> suffix = "bin") /\
       (contains "." "/files/photo.ééééé" = true ->
        (length (List.filter (fun c => (nat_of_ascii c <? 128)%nat ||
                                       (192 <=? nat_of_ascii c)%nat)
                   (list_ascii_of_string
                      (last_piece (split "." "/files/photo.ééééé")))) <= 9)%nat ->
        suffix = last_piece (split "." "/files/photo.ééééé")) /\
       (contains "." "/files/photo.ééééé" = true ->
        (9 < length (List.filter (fun c => (nat_of_ascii c <? 128)%nat ||
                                           (192 <=? nat_of_ascii c)%nat)
                       (list_ascii_of_string
                          (last_piece (split "." "/files/photo.ééééé")))))%nat ->
        suffix = "bin")).
Proof.
  apply (message_file_response_url "task-1" scenario_sign [accented_file]
           "mf-2" accented_file "/files/photo.ééééé"); reflexivity.
Defined.

Lemma url_parts_read_back_witness :
  tool_file_id_of ("/files/" +:+ "photo" +:+ "." +:+ "ééééé") = "photo" /\
  extension_of ("/files/" +:+ "photo" +:+ "." +:+ "ééééé") = "." +:+ "ééééé".
Proof.
  apply (url_parts_read_back "/files/" "photo" "ééééé");
    try reflexivity; [|vm_compute; lia].
  right. exists "/files". reflexivity.
Defined.

(** An extension of five accented letters has five characters, in ten
    bytes: it is signed as it is. *)
Example accented_file_response :
  py_len ".ééééé" = 6%nat /\
  String.length ".ééééé" = 11%nat /\
  extension_of "/files/photo.ééééé" = ".ééééé" /\
  response_url <$>
    message_file_to_stream_response "task-1" scenario_sign [accented_file]
      "mf-2" = Some "/signed/photo.ééééé".
Proof. repeat split; reflexivity. Qed.

(** Dots in the directory part and a long or missing extension: the
    extension falls back to [".bin"]; a name with several dots is cut at the
    first. *)
Example url_edge_cases :
  extension_of "/files/v1.2/archive" = ".2/archive" /\
  extension_of "/files/report.attachment" = ".bin" /\
  extension_of "/files/readme" = ".bin" /\
  tool_file_id_of "/files/a.tar.gz" = "a" /\
  extension_of "/files/a.tar.gz" = ".gz" /\
  tool_file_id_of "" = "".
Proof. repeat split; reflexivity. Qed.

(** ** The conversation-name worker *)

Lemma write_back_same (conversation_id : string)
  (conversation : Conversation.t) (rows : list Conversation.t) :
  first_conversation rows conversation_id = Some conversation ->
  write_back conversation_id conversation rows = rows.
Proof.
  induction rows as [|row rest IH]; simpl; [done|].
  destruct (String.eqb (Conversation.id row) conversation_id).
  - by intros [= ->].
  - intros Hf. by rewrite IH.
Qed.

Lemma write_back_lookup (conversation_id : string)
  (conversation found : Conversation.t) (rows : list Conversation.t)
  (i : nat) (row : Conversation.t) :
  first_conversation rows conversation_id = Some found ->
  write_back conversation_id conversation rows !! i = Some row ->
  rows !! i = Some row \/
  (rows !! i = Some found /\ row = conversation).
Proof.
  revert i. induction rows as [|r rest IH]; simpl; intros i; [done|].
  destruct (String.eqb (Conversation.id r) conversation_id).
  - intros [= ->]. destruct i as [|i]; simpl; [|by left].
    intros [= <-]. by right.
  - intros Hf. destruct i as [|i]; simpl; [by left|]. by apply IH.
Qed.

Section WorkerProperties.

Variable AppMode_COMPLETION : string.
Variable generate_conversation_name : string -> string -> option string.
Variable DEBUG : bool.
Variables (conversation_id query : string) (db : Database).

(** X22.  The worker commits whether or not the name generator fails: when
    the conversation exists, is not a completion conversation and has its
    app, the session is merged, committed and closed, in this order; if the
    generator raised, the table is left as it was (and the failure is logged
    only in debug mode).  In every other case the worker returns at once:
    table and session are untouched, the session is not closed. *)
Theorem worker_commits_or_returns :
  (forall conversation app_model,
      first_conversation (conversations db) conversation_id =
        Some conversation ->
      Conversation.mode conversation <> AppMode_COMPLETION ->
      Conversation.app conversation = Some app_model ->
      exists logged conversation1,
        session_log
          (_generate_conversation_name_worker AppMode_COMPLETION
             generate_conversation_name DEBUG conversation_id query db) =
        (session_log db ++ logged ++
         [SessionMerge conversation1; SessionCommit; SessionClose])%list /\
        (generate_conversation_name (App.tenant_id app_model) query = None ->
         conversations
           (_generate_conversation_name_worker AppMode_COMPLETION
              generate_conversation_name DEBUG conversation_id query db) =
         conversations db /\
         conversation1 = conversation /\
         logged = if DEBUG then [LogException conversation_id] else []) /\
        (forall name,
            generate_conversation_name (App.tenant_id app_model) query =
              Some name ->
            conversation1 = Conversation.set_name conversation name /\
            logged = [])) /\
  (first_conversation (conversations db) conversation_id = None \/
   (exists conversation,
       first_conversation (conversations db) conversation_id =
         Some conversation /\
       (Conversation.mode conversation = AppMode_COMPLETION \/
        Conversation.app conversation = None)) ->
   _generate_conversation_name_worker AppMode_COMPLETION
     generate_conversation_name DEBUG conversation_id query db = db).
Proof.
  unfold _generate_conversation_name_worker. split.
  - intros conversation app_model Hf Hmode Happ. rewrite Hf, Happ.
    apply String.eqb_neq in Hmode. rewrite Hmode. simpl.
    destruct (generate_conversation_name (App.tenant_id app_model) query)
      as [name|] eqn:Hg; simpl.
    + eexists [], _. split; [done|]. split; [done|].
      by intros ? [= <-].
    + eexists _, _. split; [done|]. split; [|done].
      intros _. split; [|done]. by apply write_back_same.
  - intros [Hf|(conversation & Hf & [Hmode|Happ])]; rewrite Hf; [done| |].
    + by rewrite Hmode, String.eqb_refl.
    + rewrite Happ. by destruct (negb _).
Qed.

(** X23.  The worker renames nothing but its target: every row keeps its
    place, id, mode and app, and a row whose name changed is the first row
    with the id asked for, is not a completion conversation, has its app,
    and bears the name the generator returned for the tenant of that app
    and the query. *)
Theorem worker_renames_only_target (i : nat) (row' : Conversation.t) :
  conversations
    (_generate_conversation_name_worker AppMode_COMPLETION
       generate_conversation_name DEBUG conversation_id query db) !! i =
    Some row' ->
  exists row,
    conversations db !! i = Some row /\
    Conversation.id row' = Conversation.id row /\
    Conversation.mode row' = Conversation.mode row /\
    Conversation.app row' = Conversation.app row /\
    (Conversation.name row' <> Conversation.name row ->
     first_conversation (conversations db) conversation_id = Some row /\
     Conversation.mode row <> AppMode_COMPLETION /\
     exists app_model,
       Conversation.app row = Some app_model /\
       generate_conversation_name (App.tenant_id app_model) query =
         Some (Conversation.name row')).
Proof.
  unfold _generate_conversation_name_worker.
  destruct (first_conversation (conversations db) conversation_id)
    as [conversation|] eqn:Hf; [|by exists row'].
  destruct (String.eqb (Conversation.mode conversation) AppMode_COMPLETION)
    eqn:Hmode; simpl; [by exists row'|].
  destruct (Conversation.app conversation) as [app_model|] eqn:Happ;
    [|by exists row'].
  destruct (generate_conversation_name (App.tenant_id app_model) query)
    as [name|] eqn:Hg; simpl.
  - intros Hl.
    destruct (write_back_lookup _ _ _ _ _ _ Hf Hl) as [Hsame|[Hwas ->]].
    + by exists row'.
    + exists conversation. split_and!; try done. intros _.
      split_and!; [done|by apply String.eqb_neq|by exists app_model].
  - rewrite (write_back_same _ _ _ Hf). intros Hl. by exists row'.
Qed.

End WorkerProperties.

Lemma worker_commits_or_returns_witness :
  exists logged conversation1,
    session_log
      (_generate_conversation_name_worker "completion" failing_generator true
         "c-1" "What is a vector store?" chat_db) =
    (session_log chat_db ++ logged ++
     [SessionMerge conversation1; SessionCommit; SessionClose])%list /\
    (failing_generator "t-1" "What is a vector store?" = None ->
     conversations
       (_generate_conversation_name_worker "completion" failing_generator true
          "c-1" "What is a vector store?" chat_db) = conversations chat_db /\
     conversation1 =
       {| Conversation.id := "c-1"; Conversation.mode := "chat";
          Conversation.name := "New conversation";
          Conversation.app := Some {| App.tenant_id := "t-1" |} |} /\
     logged = if true then [LogException "c-1"] else []) /\
    (forall name,
        failing_generator "t-1" "What is a vector store?" = Some name ->
        conversation1 =
          Conversation.set_name
            {| Conversation.id := "c-1"; Conversation.mode := "chat";
               Conversation.name := "New conversation";
               Conversation.app := Some {| App.tenant_id := "t-1" |} |} name /\
        logged = []).
Proof.
  apply (proj1 (worker_commits_or_returns "completion" failing_generator true
                  "c-1" "What is a vector store?" chat_db)
           {| Conversation.id := "c-1"; Conversation.mode := "chat";
              Conversation.name := "New conversation";
              Conversation.app := Some {| App.tenant_id := "t-1" |} |}
           {| App.tenant_id := "t-1" |});
    [reflexivity|discriminate|reflexivity].
Defined.

Lemma worker_renames_only_target_witness :
  exists row,
    conversations chat_db !! 1%nat = Some row /\
    Conversation.id
      {| Conversation.id := "c-1"; Conversation.mode := "chat";
         Conversation.name := "What is a vector store?";
         Conversation.app := Some {| App.tenant_id := "t-1" |} |} =
      Conversation.id row /\
    Conversation.mode
      {| Conversation.id := "c-1"; Conversation.mode := "chat";
         Conversation.name := "What is a vector store?";
         Conversation.app := Some {| App.tenant_id := "t-1" |} |} =
      Conversation.mode row /\
    Conversation.app
      {| Conversation.id := "c-1"; Conversation.mode := "chat";
         Conversation.name := "What is a vector store?";
         Conversation.app := Some {| App.tenant_id := "t-1" |} |} =
      Conversation.app row /\
    (Conversation.name
       {| Conversation.id := "c-1"; Conversation.mode := "chat";
          Conversation.name := "What is a vector store?";
          Conversation.app := Some {| App.tenant_id := "t-1" |} |} <>
     Conversation.name row ->
     first_conversation (conversations chat_db) "c-1" = Some row /\
     Conversation.mode row <> "completion" /\
     exists app_model,
       Conversation.app row = Some app_model /\
       echo_generator (App.tenant_id app_model) "What is a vector store?" =
         Some (Conversation.name
                 {| Conversation.id := "c-1"; Conversation.mode := "chat";
                    Conversation.name := "What is a vector store?";
                    Conversation.app := Some {| App.tenant_id := "t-1" |} |})).
Proof.
  apply (worker_renames_only_target "completion" echo_generator false "c-1"
           "What is a vector store?" chat_db 1%nat).
  reflexivity.
Defined.
